(** * ESP32 static memory layout ([soc/espressif/esp32/memory.h])

    The header is a list of object-like and function-like preprocessor
    macros.  Its inputs are a handful of devicetree [reg] properties and
    Kconfig symbols; every other macro is an integer expression over them,
    selected by [#if defined(...)] blocks.

    Embedding.  Each macro becomes a function of the inputs it (transitively)
    mentions and keeps its name.  A macro that is defined only inside a
    conditional block has type [option Z]: [None] is "not defined under this
    configuration".  The macros carry no C type: the expressions are
    evaluated by whoever expands them (the linker script, the compiler), so
    they are modelled as integer expressions over [Z]; nothing in the header
    clamps, masks or checks a value.  The translators are in addition
    modelled at an arbitrary word width, with the reduction written out. *)

From Stdlib Require Import ZArith Lia Bool List.
Import ListNotations.
Local Open Scope Z_scope.

(** ** Inputs *)

(** The [reg] property of a devicetree node, as read by [DT_REG_ADDR] and
    [DT_REG_SIZE]. *)
Record dt_reg : Type := mk_reg { DT_REG_ADDR : Z; DT_REG_SIZE : Z }.

(** The four nodes the header looks up: [DT_NODELABEL(sram0)],
    [DT_NODELABEL(sram1)], [DT_NODELABEL(sram2)] and
    [DT_CHOSEN(zephyr_code_partition)]. *)
Record devicetree : Type := mk_devicetree {
  sram0 : dt_reg;
  sram1 : dt_reg;
  sram2 : dt_reg;
  zephyr_code_partition : dt_reg
}.

(** The Kconfig symbols the header mentions.  A [bool] symbol is defined
    exactly when it is [true]; [CONFIG_FLASH_SIZE] is tested with [#ifdef],
    hence the [option]. *)
Record kconfig : Type := mk_kconfig {
  CONFIG_SOC_ENABLE_APPCPU : bool;
  CONFIG_SOC_ESP32_APPCPU : bool;
  CONFIG_MCUBOOT : bool;
  CONFIG_BOOTLOADER_MCUBOOT : bool;
  CONFIG_ESP32_MCUBOOT_IRAM : Z;
  CONFIG_ESP32_SRAM1_HEAP_SIZE : Z;
  CONFIG_ESP32_BT_RESERVE_DRAM : Z;
  CONFIG_ESP_APPCPU_IRAM_SIZE : Z;
  CONFIG_ESP_APPCPU_DRAM_SIZE : Z;
  CONFIG_FLASH_SIZE : option Z;
  CONFIG_MMU_PAGE_SIZE : Z
}.

(** [defined(CONFIG_SOC_ENABLE_APPCPU) || defined(CONFIG_SOC_ESP32_APPCPU)] *)
Definition appcpu_enabled (cfg : kconfig) : bool :=
  CONFIG_SOC_ENABLE_APPCPU cfg || CONFIG_SOC_ESP32_APPCPU cfg.

(** [defined(CONFIG_MCUBOOT) || defined(CONFIG_BOOTLOADER_MCUBOOT)] *)
Definition mcuboot_enabled (cfg : kconfig) : bool :=
  CONFIG_MCUBOOT cfg || CONFIG_BOOTLOADER_MCUBOOT cfg.

(** ** The macros, in the order of the header *)

Definition SRAM0_START (dt : devicetree) : Z := DT_REG_ADDR (sram0 dt).
Definition SRAM0_SIZE (dt : devicetree) : Z := DT_REG_SIZE (sram0 dt).
Definition SRAM1_START (dt : devicetree) : Z := DT_REG_ADDR (sram1 dt).
Definition SRAM1_SIZE (dt : devicetree) : Z := DT_REG_SIZE (sram1 dt).
Definition SRAM2_START (dt : devicetree) : Z := DT_REG_ADDR (sram2 dt).
Definition SRAM2_SIZE (dt : devicetree) : Z := DT_REG_SIZE (sram2 dt).

(** *** External memory cache *)

Definition CACHE_START (dt : devicetree) : Z := SRAM0_START dt.
Definition CACHE_SIZE_SINGLE_CPU : Z := 0x8000.
Definition CACHE_SIZE_DUAL_CPU : Z := 0x10000.
Definition CACHE_SIZE (cfg : kconfig) : Z :=
  if appcpu_enabled cfg then CACHE_SIZE_SINGLE_CPU else CACHE_SIZE_DUAL_CPU.

(** *** Second stage bootloader *)

Definition BOOTLOADER_IRAM_LOADER_START (dt : devicetree) (cfg : kconfig) : option Z :=
  if mcuboot_enabled cfg then Some (SRAM0_START dt + CACHE_SIZE_SINGLE_CPU) else None.

Definition BOOTLOADER_IRAM_LOADER_SIZE (cfg : kconfig) : option Z :=
  if mcuboot_enabled cfg then Some (CONFIG_ESP32_MCUBOOT_IRAM cfg) else None.

(** Defined on both branches of the [#if]: the [#else] branch gives 0. *)
Definition BOOTLOADER_IRAM_RESERVED (cfg : kconfig) : Z :=
  if mcuboot_enabled cfg
  then CACHE_SIZE_SINGLE_CPU + CONFIG_ESP32_MCUBOOT_IRAM cfg
  else 0.

Definition BOOTLOADER_IRAM_START (dt : devicetree) (cfg : kconfig) : option Z :=
  if mcuboot_enabled cfg
  then Some ((SRAM0_START dt + CACHE_SIZE_SINGLE_CPU) + CONFIG_ESP32_MCUBOOT_IRAM cfg)
  else None.

Definition BOOTLOADER_IRAM_SIZE (dt : devicetree) (cfg : kconfig) : option Z :=
  if mcuboot_enabled cfg
  then Some (SRAM0_SIZE dt - BOOTLOADER_IRAM_RESERVED cfg)
  else None.

Definition BOOTLOADER_DRAM_START (cfg : kconfig) : option Z :=
  if mcuboot_enabled cfg then Some 0x3ffe8000 else None.

Definition BOOTLOADER_DRAM_SIZE (cfg : kconfig) : option Z :=
  if mcuboot_enabled cfg then Some 0x18000 else None.

(** *** Application *)

Definition SRAM1_RESERVED : Z := 0x8000.
Definition SRAM1_DRAM_SIZE (cfg : kconfig) : Z := CONFIG_ESP32_SRAM1_HEAP_SIZE cfg.
Definition SRAM1_IRAM_SIZE (dt : devicetree) (cfg : kconfig) : Z :=
  SRAM1_SIZE dt - SRAM1_RESERVED - CONFIG_ESP32_SRAM1_HEAP_SIZE cfg.

(** [(CACHE_SIZE > BOOTLOADER_IRAM_RESERVED ? CACHE_SIZE : BOOTLOADER_IRAM_RESERVED)] *)
Definition IRAM_RESERVED (cfg : kconfig) : Z :=
  if CACHE_SIZE cfg >? BOOTLOADER_IRAM_RESERVED cfg
  then CACHE_SIZE cfg
  else BOOTLOADER_IRAM_RESERVED cfg.

Definition IRAM_START (dt : devicetree) (cfg : kconfig) : Z :=
  SRAM0_START dt + IRAM_RESERVED cfg.
Definition IRAM_SIZE (dt : devicetree) (cfg : kconfig) : Z :=
  SRAM0_SIZE dt - IRAM_RESERVED cfg + SRAM1_IRAM_SIZE dt cfg.

Definition DRAM_RESERVED (cfg : kconfig) : Z :=
  0x2000 + CONFIG_ESP32_BT_RESERVE_DRAM cfg.

Definition DRAM_START (dt : devicetree) (cfg : kconfig) : Z :=
  SRAM2_START dt + DRAM_RESERVED cfg.
Definition DRAM_SIZE (dt : devicetree) (cfg : kconfig) : Z :=
  SRAM2_SIZE dt - DRAM_RESERVED cfg.

(** [HEAP_START] is written without enclosing parentheses; standing alone
    it is the sum. *)
Definition HEAP_START (dt : devicetree) : Z := SRAM1_START dt + SRAM1_RESERVED.
Definition HEAP_SIZE (cfg : kconfig) : Z := SRAM1_DRAM_SIZE cfg.

(** *** "Pro" and "App" CPU memory *)

Definition APPCPU_IRAM_SIZE (cfg : kconfig) : Z :=
  if appcpu_enabled cfg then CONFIG_ESP_APPCPU_IRAM_SIZE cfg else 0.
Definition APPCPU_DRAM_SIZE (cfg : kconfig) : Z :=
  if appcpu_enabled cfg then CONFIG_ESP_APPCPU_DRAM_SIZE cfg else 0.
Definition APPCPU_IRAM_START (dt : devicetree) (cfg : kconfig) : Z :=
  IRAM_START dt cfg + IRAM_SIZE dt cfg - APPCPU_IRAM_SIZE cfg.
Definition APPCPU_DRAM_START (dt : devicetree) (cfg : kconfig) : Z :=
  DRAM_START dt cfg + DRAM_SIZE dt cfg - APPCPU_DRAM_SIZE cfg.

Definition PROCPU_IRAM_START (dt : devicetree) (cfg : kconfig) : Z := IRAM_START dt cfg.
Definition PROCPU_IRAM_SIZE (dt : devicetree) (cfg : kconfig) : Z :=
  IRAM_SIZE dt cfg - APPCPU_IRAM_SIZE cfg.

Definition PROCPU_DRAM_START (dt : devicetree) (cfg : kconfig) : Z := DRAM_START dt cfg.
Definition PROCPU_DRAM_SIZE (dt : devicetree) (cfg : kconfig) : Z :=
  DRAM_SIZE dt cfg - APPCPU_DRAM_SIZE cfg.

(** *** Flash and cached memories *)

Definition FLASH_SIZE (cfg : kconfig) : Z :=
  match CONFIG_FLASH_SIZE cfg with
  | Some n => n
  | None => 0x400000
  end.

Definition FLASH_CODE_START (dt : devicetree) : Z := DT_REG_ADDR (zephyr_code_partition dt).
Definition FLASH_CODE_SIZE (dt : devicetree) : Z := DT_REG_SIZE (zephyr_code_partition dt).

Definition CACHE_ALIGN (cfg : kconfig) : Z := CONFIG_MMU_PAGE_SIZE cfg.
Definition IROM_SEG_ORG : Z := 0x400d0000.
Definition IROM_SEG_LEN (cfg : kconfig) : Z := FLASH_SIZE cfg - 0x1000.
Definition DROM_SEG_ORG : Z := 0x3f400000.
Definition DROM_SEG_LEN (cfg : kconfig) : Z := FLASH_SIZE cfg - 0x1000.

(** *** IRAM <-> DRAM address conversion *)

Definition SRAM1_IRAM_START (dt : devicetree) : Z := SRAM0_START dt + SRAM0_SIZE dt.
Definition SRAM1_DRAM_START (dt : devicetree) : Z := SRAM1_START dt.

(** The parameter of the two function-like macros is substituted without
    parentheses, to the left of a binary minus.  For an argument that is a
    primary expression, a sum or a difference, and for an expansion of the
    other translator (which is parenthesised as a whole), the expansion
    denotes the function below. *)
Definition SRAM1_IRAM_DRAM_CALC (dt : devicetree) (addr_iram : Z) : Z :=
  SRAM1_SIZE dt - (addr_iram - SRAM1_IRAM_START dt) + SRAM1_DRAM_START dt.

Definition SRAM1_DRAM_IRAM_CALC (dt : devicetree) (addr_dram : Z) : Z :=
  SRAM1_SIZE dt - (addr_dram - SRAM1_DRAM_START dt) + SRAM1_IRAM_START dt.

(** ** The translators at a fixed word width

    Where the expansion is evaluated in [w]-bit unsigned arithmetic, every
    addition and subtraction is reduced modulo [2^w]. *)

Definition wrap (w : Z) (z : Z) : Z := z mod 2 ^ w.

Definition SRAM1_IRAM_START_w (w : Z) (dt : devicetree) : Z :=
  wrap w (SRAM0_START dt + SRAM0_SIZE dt).

Definition SRAM1_IRAM_DRAM_CALC_w (w : Z) (dt : devicetree) (addr_iram : Z) : Z :=
  wrap w (wrap w (SRAM1_SIZE dt - wrap w (addr_iram - SRAM1_IRAM_START_w w dt))
          + SRAM1_DRAM_START dt).

Definition SRAM1_DRAM_IRAM_CALC_w (w : Z) (dt : devicetree) (addr_dram : Z) : Z :=
  wrap w (wrap w (SRAM1_SIZE dt - wrap w (addr_dram - SRAM1_DRAM_START dt))
          + SRAM1_IRAM_START_w w dt).

(** ** Regions

    The header names its address ranges by pairs [X_START] / [X_SIZE]
    (for the cached segments [X_ORG] / [X_LEN]).  A region is such a pair,
    read as the half-open interval [[START, START + SIZE)]. *)

Record region : Type := mk_region { START : Z; SIZE : Z }.

Definition END (r : region) : Z := START r + SIZE r.

Definition contains (r : region) (a : Z) : Prop := START r <= a < END r.

Definition containsb (r : region) (a : Z) : bool :=
  (START r <=? a) && (a <? END r).

Definition overlap (r1 r2 : region) : Prop :=
  exists a, contains r1 a /\ contains r2 a.

Definition disjoint (r1 r2 : region) : Prop :=
  forall a, ~ (contains r1 a /\ contains r2 a).

(** Two half-open intervals meet iff the larger start is below the
    smaller end. *)
Definition overlapb (r1 r2 : region) : bool :=
  Z.max (START r1) (START r2) <? Z.min (END r1) (END r2).

Definition pairwise_disjoint (rs : list region) : Prop :=
  ForallOrdPairs disjoint rs.

(** A region whose two macros are defined only under a condition. *)
Definition region_of (start size : option Z) : option region :=
  match start, size with
  | Some s, Some n => Some (mk_region s n)
  | _, _ => None
  end.

Definition cache_region (dt : devicetree) (cfg : kconfig) : region :=
  mk_region (CACHE_START dt) (CACHE_SIZE cfg).

Definition loader_critical_region (dt : devicetree) (cfg : kconfig) : option region :=
  region_of (BOOTLOADER_IRAM_LOADER_START dt cfg) (BOOTLOADER_IRAM_LOADER_SIZE cfg).

Definition loader_reclaimable_region (dt : devicetree) (cfg : kconfig) : option region :=
  region_of (BOOTLOADER_IRAM_START dt cfg) (BOOTLOADER_IRAM_SIZE dt cfg).

Definition loader_dram_region (cfg : kconfig) : option region :=
  region_of (BOOTLOADER_DRAM_START cfg) (BOOTLOADER_DRAM_SIZE cfg).

Definition iram_region (dt : devicetree) (cfg : kconfig) : region :=
  mk_region (IRAM_START dt cfg) (IRAM_SIZE dt cfg).

Definition dram_region (dt : devicetree) (cfg : kconfig) : region :=
  mk_region (DRAM_START dt cfg) (DRAM_SIZE dt cfg).

Definition heap_region (dt : devicetree) (cfg : kconfig) : region :=
  mk_region (HEAP_START dt) (HEAP_SIZE cfg).

Definition procpu_iram_region (dt : devicetree) (cfg : kconfig) : region :=
  mk_region (PROCPU_IRAM_START dt cfg) (PROCPU_IRAM_SIZE dt cfg).

Definition appcpu_iram_region (dt : devicetree) (cfg : kconfig) : region :=
  mk_region (APPCPU_IRAM_START dt cfg) (APPCPU_IRAM_SIZE cfg).

Definition procpu_dram_region (dt : devicetree) (cfg : kconfig) : region :=
  mk_region (PROCPU_DRAM_START dt cfg) (PROCPU_DRAM_SIZE dt cfg).

Definition appcpu_dram_region (dt : devicetree) (cfg : kconfig) : region :=
  mk_region (APPCPU_DRAM_START dt cfg) (APPCPU_DRAM_SIZE cfg).

Definition flash_code_partition (dt : devicetree) : region :=
  mk_region (FLASH_CODE_START dt) (FLASH_CODE_SIZE dt).

(** The cache-backed views of the flash: instruction ROM and data ROM. *)
Definition flash_code_region (cfg : kconfig) : region :=
  mk_region IROM_SEG_ORG (IROM_SEG_LEN cfg).

Definition flash_data_region (cfg : kconfig) : region :=
  mk_region DROM_SEG_ORG (DROM_SEG_LEN cfg).

Definition option_list {A : Type} (o : option A) : list A :=
  match o with
  | Some a => [a]
  | None => []
  end.

(** The regions of the instruction bus that the header defines below the
    per-core split, in the order of the header. *)
Definition instruction_bus_regions (dt : devicetree) (cfg : kconfig) : list region :=
  cache_region dt cfg
    :: option_list (loader_critical_region dt cfg)
    ++ option_list (loader_reclaimable_region dt cfg)
    ++ [iram_region dt cfg].

(** ** The layout as a whole *)

Record MemoryLayout : Type := mk_layout {
  cache : region;
  loader_critical : option region;
  loader_reclaimable : option region;
  loader_dram : option region;
  sram1_iram_size : Z;
  iram : region;
  dram : region;
  heap : region;
  iram_primary : region;
  iram_secondary : region;
  dram_primary : region;
  dram_secondary : region;
  code_partition : region;
  flash_code : region;
  flash_data : region;
  cache_align : Z
}.

(** Expanding the header under a devicetree and a configuration.  The result
    is an [option] so that a stopped build has a value, [None]; the header
    contains no [#error] directive and no assertion, so every input yields
    [Some] layout. *)
Definition resolve (dt : devicetree) (cfg : kconfig) : option MemoryLayout :=
  Some {|
    cache := cache_region dt cfg;
    loader_critical := loader_critical_region dt cfg;
    loader_reclaimable := loader_reclaimable_region dt cfg;
    loader_dram := loader_dram_region cfg;
    sram1_iram_size := SRAM1_IRAM_SIZE dt cfg;
    iram := iram_region dt cfg;
    dram := dram_region dt cfg;
    heap := heap_region dt cfg;
    iram_primary := procpu_iram_region dt cfg;
    iram_secondary := appcpu_iram_region dt cfg;
    dram_primary := procpu_dram_region dt cfg;
    dram_secondary := appcpu_dram_region dt cfg;
    code_partition := flash_code_partition dt;
    flash_code := flash_code_region cfg;
    flash_data := flash_data_region cfg;
    cache_align := CACHE_ALIGN cfg
  |}.

(** ** Concrete inputs

    Bank sizes of the header's opening comment (192 kB, 128 kB, 200 kB); the
    data-bus addresses of SRAM2 and SRAM1 are those of its ROM table. *)

Definition esp32_dt : devicetree :=
  {| sram0 := mk_reg 0x40080000 0x30000;
     sram1 := mk_reg 0x3ffe0000 0x20000;
     sram2 := mk_reg 0x3ffae000 0x32000;
     zephyr_code_partition := mk_reg 0x20000 0x1e0000 |}.

(** Single core, no second stage bootloader. *)
Definition cfg_default : kconfig :=
  {| CONFIG_SOC_ENABLE_APPCPU := false;
     CONFIG_SOC_ESP32_APPCPU := false;
     CONFIG_MCUBOOT := false;
     CONFIG_BOOTLOADER_MCUBOOT := false;
     CONFIG_ESP32_MCUBOOT_IRAM := 0;
     CONFIG_ESP32_SRAM1_HEAP_SIZE := 0;
     CONFIG_ESP32_BT_RESERVE_DRAM := 0;
     CONFIG_ESP_APPCPU_IRAM_SIZE := 0;
     CONFIG_ESP_APPCPU_DRAM_SIZE := 0;
     CONFIG_FLASH_SIZE := None;
     CONFIG_MMU_PAGE_SIZE := 0x10000 |}.

Definition with_mcuboot_iram (cfg : kconfig) (n : Z) : kconfig :=
  {| CONFIG_SOC_ENABLE_APPCPU := CONFIG_SOC_ENABLE_APPCPU cfg;
     CONFIG_SOC_ESP32_APPCPU := CONFIG_SOC_ESP32_APPCPU cfg;
     CONFIG_MCUBOOT := CONFIG_MCUBOOT cfg;
     CONFIG_BOOTLOADER_MCUBOOT := true;
     CONFIG_ESP32_MCUBOOT_IRAM := n;
     CONFIG_ESP32_SRAM1_HEAP_SIZE := CONFIG_ESP32_SRAM1_HEAP_SIZE cfg;
     CONFIG_ESP32_BT_RESERVE_DRAM := CONFIG_ESP32_BT_RESERVE_DRAM cfg;
     CONFIG_ESP_APPCPU_IRAM_SIZE := CONFIG_ESP_APPCPU_IRAM_SIZE cfg;
     CONFIG_ESP_APPCPU_DRAM_SIZE := CONFIG_ESP_APPCPU_DRAM_SIZE cfg;
     CONFIG_FLASH_SIZE := CONFIG_FLASH_SIZE cfg;
     CONFIG_MMU_PAGE_SIZE := CONFIG_MMU_PAGE_SIZE cfg |}.

Definition with_sram1_heap (cfg : kconfig) (n : Z) : kconfig :=
  {| CONFIG_SOC_ENABLE_APPCPU := CONFIG_SOC_ENABLE_APPCPU cfg;
     CONFIG_SOC_ESP32_APPCPU := CONFIG_SOC_ESP32_APPCPU cfg;
     CONFIG_MCUBOOT := CONFIG_MCUBOOT cfg;
     CONFIG_BOOTLOADER_MCUBOOT := CONFIG_BOOTLOADER_MCUBOOT cfg;
     CONFIG_ESP32_MCUBOOT_IRAM := CONFIG_ESP32_MCUBOOT_IRAM cfg;
     CONFIG_ESP32_SRAM1_HEAP_SIZE := n;
     CONFIG_ESP32_BT_RESERVE_DRAM := CONFIG_ESP32_BT_RESERVE_DRAM cfg;
     CONFIG_ESP_APPCPU_IRAM_SIZE := CONFIG_ESP_APPCPU_IRAM_SIZE cfg;
     CONFIG_ESP_APPCPU_DRAM_SIZE := CONFIG_ESP_APPCPU_DRAM_SIZE cfg;
     CONFIG_FLASH_SIZE := CONFIG_FLASH_SIZE cfg;
     CONFIG_MMU_PAGE_SIZE := CONFIG_MMU_PAGE_SIZE cfg |}.

(** Enable the "App" CPU with the given IRAM and DRAM sizes. *)
Definition with_appcpu (cfg : kconfig) (iram_size dram_size : Z) : kconfig :=
  {| CONFIG_SOC_ENABLE_APPCPU := true;
     CONFIG_SOC_ESP32_APPCPU := CONFIG_SOC_ESP32_APPCPU cfg;
     CONFIG_MCUBOOT := CONFIG_MCUBOOT cfg;
     CONFIG_BOOTLOADER_MCUBOOT := CONFIG_BOOTLOADER_MCUBOOT cfg;
     CONFIG_ESP32_MCUBOOT_IRAM := CONFIG_ESP32_MCUBOOT_IRAM cfg;
     CONFIG_ESP32_SRAM1_HEAP_SIZE := CONFIG_ESP32_SRAM1_HEAP_SIZE cfg;
     CONFIG_ESP32_BT_RESERVE_DRAM := CONFIG_ESP32_BT_RESERVE_DRAM cfg;
     CONFIG_ESP_APPCPU_IRAM_SIZE := iram_size;
     CONFIG_ESP_APPCPU_DRAM_SIZE := dram_size;
     CONFIG_FLASH_SIZE := CONFIG_FLASH_SIZE cfg;
     CONFIG_MMU_PAGE_SIZE := CONFIG_MMU_PAGE_SIZE cfg |}.

(** Change only the two "App" CPU size symbols. *)
Definition with_appcpu_sizes (cfg : kconfig) (iram_size dram_size : Z) : kconfig :=
  {| CONFIG_SOC_ENABLE_APPCPU := CONFIG_SOC_ENABLE_APPCPU cfg;
     CONFIG_SOC_ESP32_APPCPU := CONFIG_SOC_ESP32_APPCPU cfg;
     CONFIG_MCUBOOT := CONFIG_MCUBOOT cfg;
     CONFIG_BOOTLOADER_MCUBOOT := CONFIG_BOOTLOADER_MCUBOOT cfg;
     CONFIG_ESP32_MCUBOOT_IRAM := CONFIG_ESP32_MCUBOOT_IRAM cfg;
     CONFIG_ESP32_SRAM1_HEAP_SIZE := CONFIG_ESP32_SRAM1_HEAP_SIZE cfg;
     CONFIG_ESP32_BT_RESERVE_DRAM := CONFIG_ESP32_BT_RESERVE_DRAM cfg;
     CONFIG_ESP_APPCPU_IRAM_SIZE := iram_size;
     CONFIG_ESP_APPCPU_DRAM_SIZE := dram_size;
     CONFIG_FLASH_SIZE := CONFIG_FLASH_SIZE cfg;
     CONFIG_MMU_PAGE_SIZE := CONFIG_MMU_PAGE_SIZE cfg |}.

(** Single core, booted by MCUboot whose loader segment takes 16 KiB. *)
Definition cfg_mcuboot_16k : kconfig := with_mcuboot_iram cfg_default 0x4000.

(** Dual core (24 KiB IRAM and 16 KiB DRAM for the "App" CPU), booted by
    MCUboot whose loader segment takes 16 KiB. *)
Definition cfg_amp_mcuboot : kconfig := with_appcpu cfg_mcuboot_16k 0x6000 0x4000.

(** MCUboot with a 176 KiB loader segment: more than SRAM0 has left after
    the single-CPU cache. *)
Definition cfg_mcuboot_oversized : kconfig := with_mcuboot_iram cfg_default 0x2c000.

(** A 128 KiB heap in SRAM1: the whole bank, leaving nothing for the 32 KiB
    that are reserved at its start. *)
Definition cfg_heap_oversized : kconfig := with_sram1_heap cfg_default 0x20000.

(** ** Admissible configurations

    The conditions under which the layout is meant to be used: banks are
    non-empty, every reservation is non-negative and fits its bank, the
    secondary sizes are 0 on a single-core build and fit the pools.  The
    header does not check them; they delimit the inputs over which
    properties of the layout are stated. *)
Definition admissible (dt : devicetree) (cfg : kconfig) : Prop :=
  0 < SRAM0_SIZE dt /\ 0 < SRAM1_SIZE dt /\ 0 < SRAM2_SIZE dt /\
  (mcuboot_enabled cfg = true ->
     0 <= CONFIG_ESP32_MCUBOOT_IRAM cfg < SRAM0_SIZE dt - CACHE_SIZE_SINGLE_CPU) /\
  0 <= CONFIG_ESP32_SRAM1_HEAP_SIZE cfg /\
  CONFIG_ESP32_SRAM1_HEAP_SIZE cfg + SRAM1_RESERVED <= SRAM1_SIZE dt /\
  0 <= CONFIG_ESP32_BT_RESERVE_DRAM cfg /\
  DRAM_RESERVED cfg < SRAM2_SIZE dt /\
  (appcpu_enabled cfg = false ->
     CONFIG_ESP_APPCPU_IRAM_SIZE cfg = 0 /\ CONFIG_ESP_APPCPU_DRAM_SIZE cfg = 0) /\
  0 <= CONFIG_ESP_APPCPU_IRAM_SIZE cfg <= IRAM_SIZE dt cfg /\
  0 <= CONFIG_ESP_APPCPU_DRAM_SIZE cfg <= DRAM_SIZE dt cfg.

(** ** Further inputs and views *)

(** Undefine both bootloader symbols. *)
Definition without_mcuboot (cfg : kconfig) : kconfig :=
  {| CONFIG_SOC_ENABLE_APPCPU := CONFIG_SOC_ENABLE_APPCPU cfg;
     CONFIG_SOC_ESP32_APPCPU := CONFIG_SOC_ESP32_APPCPU cfg;
     CONFIG_MCUBOOT := false;
     CONFIG_BOOTLOADER_MCUBOOT := false;
     CONFIG_ESP32_MCUBOOT_IRAM := CONFIG_ESP32_MCUBOOT_IRAM cfg;
     CONFIG_ESP32_SRAM1_HEAP_SIZE := CONFIG_ESP32_SRAM1_HEAP_SIZE cfg;
     CONFIG_ESP32_BT_RESERVE_DRAM := CONFIG_ESP32_BT_RESERVE_DRAM cfg;
     CONFIG_ESP_APPCPU_IRAM_SIZE := CONFIG_ESP_APPCPU_IRAM_SIZE cfg;
     CONFIG_ESP_APPCPU_DRAM_SIZE := CONFIG_ESP_APPCPU_DRAM_SIZE cfg;
     CONFIG_FLASH_SIZE := CONFIG_FLASH_SIZE cfg;
     CONFIG_MMU_PAGE_SIZE := CONFIG_MMU_PAGE_SIZE cfg |}.

(** Change only [CONFIG_ESP32_MCUBOOT_IRAM]. *)
Definition with_loader_size (cfg : kconfig) (n : Z) : kconfig :=
  {| CONFIG_SOC_ENABLE_APPCPU := CONFIG_SOC_ENABLE_APPCPU cfg;
     CONFIG_SOC_ESP32_APPCPU := CONFIG_SOC_ESP32_APPCPU cfg;
     CONFIG_MCUBOOT := CONFIG_MCUBOOT cfg;
     CONFIG_BOOTLOADER_MCUBOOT := CONFIG_BOOTLOADER_MCUBOOT cfg;
     CONFIG_ESP32_MCUBOOT_IRAM := n;
     CONFIG_ESP32_SRAM1_HEAP_SIZE := CONFIG_ESP32_SRAM1_HEAP_SIZE cfg;
     CONFIG_ESP32_BT_RESERVE_DRAM := CONFIG_ESP32_BT_RESERVE_DRAM cfg;
     CONFIG_ESP_APPCPU_IRAM_SIZE := CONFIG_ESP_APPCPU_IRAM_SIZE cfg;
     CONFIG_ESP_APPCPU_DRAM_SIZE := CONFIG_ESP_APPCPU_DRAM_SIZE cfg;
     CONFIG_FLASH_SIZE := CONFIG_FLASH_SIZE cfg;
     CONFIG_MMU_PAGE_SIZE := CONFIG_MMU_PAGE_SIZE cfg |}.

(** Change only [CONFIG_MMU_PAGE_SIZE]. *)
Definition with_mmu_page_size (cfg : kconfig) (n : Z) : kconfig :=
  {| CONFIG_SOC_ENABLE_APPCPU := CONFIG_SOC_ENABLE_APPCPU cfg;
     CONFIG_SOC_ESP32_APPCPU := CONFIG_SOC_ESP32_APPCPU cfg;
     CONFIG_MCUBOOT := CONFIG_MCUBOOT cfg;
     CONFIG_BOOTLOADER_MCUBOOT := CONFIG_BOOTLOADER_MCUBOOT cfg;
     CONFIG_ESP32_MCUBOOT_IRAM := CONFIG_ESP32_MCUBOOT_IRAM cfg;
     CONFIG_ESP32_SRAM1_HEAP_SIZE := CONFIG_ESP32_SRAM1_HEAP_SIZE cfg;
     CONFIG_ESP32_BT_RESERVE_DRAM := CONFIG_ESP32_BT_RESERVE_DRAM cfg;
     CONFIG_ESP_APPCPU_IRAM_SIZE := CONFIG_ESP_APPCPU_IRAM_SIZE cfg;
     CONFIG_ESP_APPCPU_DRAM_SIZE := CONFIG_ESP_APPCPU_DRAM_SIZE cfg;
     CONFIG_FLASH_SIZE := CONFIG_FLASH_SIZE cfg;
     CONFIG_MMU_PAGE_SIZE := n |}.

(** The bootloader's own build: [CONFIG_MCUBOOT], single core, a 16 KiB
    loader segment. *)
Definition cfg_bootloader_build : kconfig :=
  {| CONFIG_SOC_ENABLE_APPCPU := false;
     CONFIG_SOC_ESP32_APPCPU := false;
     CONFIG_MCUBOOT := true;
     CONFIG_BOOTLOADER_MCUBOOT := false;
     CONFIG_ESP32_MCUBOOT_IRAM := 0x4000;
     CONFIG_ESP32_SRAM1_HEAP_SIZE := 0;
     CONFIG_ESP32_BT_RESERVE_DRAM := 0;
     CONFIG_ESP_APPCPU_IRAM_SIZE := 0;
     CONFIG_ESP_APPCPU_DRAM_SIZE := 0;
     CONFIG_FLASH_SIZE := None;
     CONFIG_MMU_PAGE_SIZE := 0x10000 |}.

(** The three banks as address ranges: SRAM0 and the instruction-bus view
    of SRAM1 on the instruction bus, SRAM1 and SRAM2 on the data bus. *)
Definition sram0_bank (dt : devicetree) : region :=
  mk_region (SRAM0_START dt) (SRAM0_SIZE dt).

Definition sram1_iram_view (dt : devicetree) : region :=
  mk_region (SRAM1_IRAM_START dt) (SRAM1_SIZE dt).

Definition sram1_dram_view (dt : devicetree) : region :=
  mk_region (SRAM1_DRAM_START dt) (SRAM1_SIZE dt).

Definition sram2_bank (dt : devicetree) : region :=
  mk_region (SRAM2_START dt) (SRAM2_SIZE dt).

(** ** Macro expansion as text

    A macro is replaced by its replacement list, token by token; whether
    the result means what the macro's name suggests depends on the
    parentheses of the replacement list.  The fragment needed here has
    integer literals, binary [+] and [-] and parentheses. *)

Inductive token : Type :=
| TNum (z : Z)
| TPlus
| TMinus
| TLParen
| TRParen.

(** Evaluation of a token sequence, left to right.  [acc] is the value of
    the additive expression read so far at the current nesting level,
    [sign] the operator before the operand that is due, [operand_due] tells
    whether an operand or an operator has to come next, and [outer] holds
    [acc] and [sign] of the enclosing levels, innermost first. *)
Record frame : Type := mk_frame { acc : Z; sign : Z; operand_due : bool; outer : list (Z * Z) }.

Definition frame_init : frame := mk_frame 0 1 true [].

Definition step (f : frame) (t : token) : option frame :=
  match t, operand_due f with
  | TNum z, true => Some (mk_frame (acc f + sign f * z) 1 false (outer f))
  | TPlus, false => Some (mk_frame (acc f) 1 true (outer f))
  | TMinus, false => Some (mk_frame (acc f) (-1) true (outer f))
  | TLParen, true => Some (mk_frame 0 1 true ((acc f, sign f) :: outer f))
  | TRParen, false =>
      match outer f with
      | (a, s) :: rest => Some (mk_frame (a + s * acc f) 1 false rest)
      | [] => None
      end
  | _, _ => None
  end.

Fixpoint run (f : frame) (ts : list token) : option frame :=
  match ts with
  | [] => Some f
  | t :: ts' =>
      match step f t with
      | Some f' => run f' ts'
      | None => None
      end
  end.

(** The value of a complete expression; [None] for a sequence that is not
    one. *)
Definition eval (ts : list token) : option Z :=
  match run frame_init ts with
  | Some f =>
      match operand_due f, outer f with
      | false, [] => Some (acc f)
      | _, _ => None
      end
  | None => None
  end.

(** The same frame with further enclosing levels below its own. *)
Definition extend (f : frame) (ext : list (Z * Z)) : frame :=
  mk_frame (acc f) (sign f) (operand_due f) (outer f ++ ext).

(** Replacement lists.  [SRAM1_START] and its like expand to the integer
    literal the devicetree generator emits, a Kconfig symbol to its
    literal. *)

(** [SRAM1_START + SRAM1_RESERVED], as written: no parentheses. *)
Definition HEAP_START_tokens (dt : devicetree) : list token :=
  [TNum (SRAM1_START dt); TPlus; TNum SRAM1_RESERVED].

(** [(0x2000 + CONFIG_ESP32_BT_RESERVE_DRAM)] *)
Definition DRAM_RESERVED_tokens (cfg : kconfig) : list token :=
  [TLParen; TNum 0x2000; TPlus; TNum (CONFIG_ESP32_BT_RESERVE_DRAM cfg); TRParen].

(** [(SRAM2_START + DRAM_RESERVED)] *)
Definition DRAM_START_tokens (dt : devicetree) (cfg : kconfig) : list token :=
  [TLParen; TNum (SRAM2_START dt); TPlus] ++ DRAM_RESERVED_tokens cfg ++ [TRParen].

(** [(SRAM0_START + SRAM0_SIZE)] *)
Definition SRAM1_IRAM_START_tokens (dt : devicetree) : list token :=
  [TLParen; TNum (SRAM0_START dt); TPlus; TNum (SRAM0_SIZE dt); TRParen].

(** [(SRAM1_SIZE - (addr_iram - SRAM1_IRAM_START) + SRAM1_DRAM_START)],
    the argument spliced in as it is. *)
Definition SRAM1_IRAM_DRAM_CALC_tokens (dt : devicetree) (addr_iram : list token)
  : list token :=
  [TLParen; TNum (SRAM1_SIZE dt); TMinus; TLParen]
    ++ addr_iram
    ++ [TMinus] ++ SRAM1_IRAM_START_tokens dt
    ++ [TRParen; TPlus; TNum (SRAM1_START dt); TRParen].

(** [(SRAM1_SIZE - (addr_dram - SRAM1_DRAM_START) + SRAM1_IRAM_START)] *)
Definition SRAM1_DRAM_IRAM_CALC_tokens (dt : devicetree) (addr_dram : list token)
  : list token :=
  [TLParen; TNum (SRAM1_SIZE dt); TMinus; TLParen]
    ++ addr_dram
    ++ [TMinus; TNum (SRAM1_START dt); TRParen; TPlus]
    ++ SRAM1_IRAM_START_tokens dt
    ++ [TRParen].

(** Unfolding of the macros down to the inputs. *)
Create HintDb macros.
#[local] Hint Unfold
  SRAM0_START SRAM0_SIZE SRAM1_START SRAM1_SIZE SRAM2_START SRAM2_SIZE
  CACHE_START CACHE_SIZE
  BOOTLOADER_IRAM_LOADER_START BOOTLOADER_IRAM_LOADER_SIZE BOOTLOADER_IRAM_RESERVED
  BOOTLOADER_IRAM_START BOOTLOADER_IRAM_SIZE
  SRAM1_DRAM_SIZE SRAM1_IRAM_SIZE IRAM_START IRAM_SIZE
  DRAM_RESERVED DRAM_START DRAM_SIZE HEAP_START HEAP_SIZE
  APPCPU_IRAM_SIZE APPCPU_DRAM_SIZE APPCPU_IRAM_START APPCPU_DRAM_START
  PROCPU_IRAM_START PROCPU_IRAM_SIZE PROCPU_DRAM_START PROCPU_DRAM_SIZE
  FLASH_SIZE FLASH_CODE_START FLASH_CODE_SIZE CACHE_ALIGN IROM_SEG_LEN DROM_SEG_LEN
  SRAM1_IRAM_START SRAM1_DRAM_START
  cache_region iram_region dram_region heap_region
  procpu_iram_region appcpu_iram_region procpu_dram_region appcpu_dram_region
  flash_code_partition flash_code_region flash_data_region
  END contains : macros.

(** * Properties *)

(** ** Intervals *)

Lemma containsb_spec (r : region) (a : Z) :
  containsb r a = true <-> contains r a.
Proof.
  unfold containsb, contains.
  rewrite andb_true_iff, Z.leb_le, Z.ltb_lt. tauto.
Qed.

Lemma overlapb_spec (r1 r2 : region) :
  overlapb r1 r2 = true <-> overlap r1 r2.
Proof.
  unfold overlapb, overlap, contains. rewrite Z.ltb_lt. split.
  - intros H. exists (Z.max (START r1) (START r2)). lia.
  - intros [a Ha]. lia.
Qed.

Lemma disjoint_iff_not_overlap (r1 r2 : region) :
  disjoint r1 r2 <-> ~ overlap r1 r2.
Proof.
  unfold disjoint, overlap. split.
  - intros H [a Ha]. exact (H a Ha).
  - intros H a Ha. apply H. exists a. exact Ha.
Qed.

Lemma disjoint_sym (r1 r2 : region) : disjoint r1 r2 -> disjoint r2 r1.
Proof. intros H a [H2 H1]. exact (H a (conj H1 H2)). Qed.

(** One region ends where (or before) the other starts. *)
Lemma disjoint_of_order (r1 r2 : region) :
  END r1 <= START r2 -> disjoint r1 r2.
Proof. unfold disjoint, contains. intros H a Ha. lia. Qed.

Lemma overlap_not_disjoint (r1 r2 : region) (a : Z) :
  contains r1 a -> contains r2 a -> ~ disjoint r1 r2.
Proof. intros H1 H2 H. exact (H a (conj H1 H2)). Qed.

(** ** The head of SRAM0 *)

Lemma CACHE_SIZE_cases (cfg : kconfig) :
  CACHE_SIZE cfg = 0x8000 \/ CACHE_SIZE cfg = 0x10000.
Proof. unfold CACHE_SIZE. destruct (appcpu_enabled cfg); [left | right]; reflexivity. Qed.

Lemma IRAM_RESERVED_max (cfg : kconfig) :
  IRAM_RESERVED cfg = Z.max (CACHE_SIZE cfg) (BOOTLOADER_IRAM_RESERVED cfg).
Proof.
  unfold IRAM_RESERVED.
  destruct (Z.gtb_spec (CACHE_SIZE cfg) (BOOTLOADER_IRAM_RESERVED cfg)); lia.
Qed.

Lemma IRAM_RESERVED_ge_cache (cfg : kconfig) : CACHE_SIZE cfg <= IRAM_RESERVED cfg.
Proof. rewrite IRAM_RESERVED_max. lia. Qed.

Lemma IRAM_RESERVED_ge_loader (cfg : kconfig) :
  BOOTLOADER_IRAM_RESERVED cfg <= IRAM_RESERVED cfg.
Proof. rewrite IRAM_RESERVED_max. lia. Qed.

(** The loader regions, once the bootloader block is selected. *)
Lemma loader_regions_defined (dt : devicetree) (cfg : kconfig) :
  mcuboot_enabled cfg = true ->
  loader_critical_region dt cfg =
    Some (mk_region (SRAM0_START dt + CACHE_SIZE_SINGLE_CPU) (CONFIG_ESP32_MCUBOOT_IRAM cfg)) /\
  loader_reclaimable_region dt cfg =
    Some (mk_region (SRAM0_START dt + CACHE_SIZE_SINGLE_CPU + CONFIG_ESP32_MCUBOOT_IRAM cfg)
                    (SRAM0_SIZE dt - (CACHE_SIZE_SINGLE_CPU + CONFIG_ESP32_MCUBOOT_IRAM cfg))).
Proof.
  intros H.
  unfold loader_critical_region, loader_reclaimable_region,
    BOOTLOADER_IRAM_LOADER_START, BOOTLOADER_IRAM_LOADER_SIZE,
    BOOTLOADER_IRAM_START, BOOTLOADER_IRAM_SIZE, BOOTLOADER_IRAM_RESERVED.
  rewrite H. split; reflexivity.
Qed.

Lemma loader_regions_undefined (dt : devicetree) (cfg : kconfig) :
  mcuboot_enabled cfg = false ->
  loader_critical_region dt cfg = None /\ loader_reclaimable_region dt cfg = None.
Proof.
  intros H.
  unfold loader_critical_region, loader_reclaimable_region,
    BOOTLOADER_IRAM_LOADER_START, BOOTLOADER_IRAM_LOADER_SIZE,
    BOOTLOADER_IRAM_START, BOOTLOADER_IRAM_SIZE.
  rewrite H. split; reflexivity.
Qed.

(** ** The per-core split *)

Lemma procpu_appcpu_iram_adjacent (dt : devicetree) (cfg : kconfig) :
  END (procpu_iram_region dt cfg) = START (appcpu_iram_region dt cfg).
Proof.
  unfold END, procpu_iram_region, appcpu_iram_region; simpl.
  unfold PROCPU_IRAM_START, PROCPU_IRAM_SIZE, APPCPU_IRAM_START. lia.
Qed.

Lemma procpu_appcpu_dram_adjacent (dt : devicetree) (cfg : kconfig) :
  END (procpu_dram_region dt cfg) = START (appcpu_dram_region dt cfg).
Proof.
  unfold END, procpu_dram_region, appcpu_dram_region; simpl.
  unfold PROCPU_DRAM_START, PROCPU_DRAM_SIZE, APPCPU_DRAM_START. lia.
Qed.

(** ** Word-width arithmetic *)

Lemma wrap_idem (w z : Z) : wrap w (wrap w z) = wrap w z.
Proof. unfold wrap. apply Z.mod_mod_divide. apply Z.divide_refl. Qed.

Lemma wrap_small (w z : Z) : 0 <= z < 2 ^ w -> wrap w z = z.
Proof. unfold wrap. apply Z.mod_small. Qed.

Lemma wrap_add_l (w a b : Z) : wrap w (wrap w a + b) = wrap w (a + b).
Proof. unfold wrap. apply Zplus_mod_idemp_l. Qed.

Lemma wrap_add_r (w a b : Z) : wrap w (a + wrap w b) = wrap w (a + b).
Proof. unfold wrap. apply Zplus_mod_idemp_r. Qed.

Lemma wrap_sub_l (w a b : Z) : wrap w (wrap w a - b) = wrap w (a - b).
Proof. unfold wrap. apply Zminus_mod_idemp_l. Qed.

Lemma wrap_sub_r (w a b : Z) : wrap w (a - wrap w b) = wrap w (a - b).
Proof. unfold wrap. apply Zminus_mod_idemp_r. Qed.

(** At any width each translator is the reduction of the exact one. *)
Lemma SRAM1_IRAM_DRAM_CALC_w_exact (w : Z) (dt : devicetree) (a : Z) :
  SRAM1_IRAM_DRAM_CALC_w w dt a = wrap w (SRAM1_IRAM_DRAM_CALC dt a).
Proof.
  unfold SRAM1_IRAM_DRAM_CALC_w, SRAM1_IRAM_DRAM_CALC, SRAM1_IRAM_START_w, SRAM1_IRAM_START.
  rewrite (wrap_sub_r w a), (wrap_sub_r w (SRAM1_SIZE dt)), wrap_add_l. reflexivity.
Qed.

Lemma SRAM1_DRAM_IRAM_CALC_w_exact (w : Z) (dt : devicetree) (a : Z) :
  SRAM1_DRAM_IRAM_CALC_w w dt a = wrap w (SRAM1_DRAM_IRAM_CALC dt a).
Proof.
  unfold SRAM1_DRAM_IRAM_CALC_w, SRAM1_DRAM_IRAM_CALC, SRAM1_IRAM_START_w, SRAM1_IRAM_START.
  rewrite (wrap_sub_r w (SRAM1_SIZE dt)), wrap_add_l, wrap_add_r. reflexivity.
Qed.

(** ** The bus address translators *)

Lemma SRAM1_DRAM_IRAM_CALC_inverse (dt : devicetree) (x : Z) :
  SRAM1_DRAM_IRAM_CALC dt (SRAM1_IRAM_DRAM_CALC dt x) = x.
Proof. unfold SRAM1_DRAM_IRAM_CALC, SRAM1_IRAM_DRAM_CALC. lia. Qed.

Lemma SRAM1_IRAM_DRAM_CALC_inverse (dt : devicetree) (y : Z) :
  SRAM1_IRAM_DRAM_CALC dt (SRAM1_DRAM_IRAM_CALC dt y) = y.
Proof. unfold SRAM1_DRAM_IRAM_CALC, SRAM1_IRAM_DRAM_CALC. lia. Qed.

(** The inverse law survives evaluation at any word width, for addresses
    that are representable at that width. *)
Lemma SRAM1_DRAM_IRAM_CALC_w_inverse (w : Z) (dt : devicetree) (x : Z) :
  0 <= x < 2 ^ w ->
  SRAM1_DRAM_IRAM_CALC_w w dt (SRAM1_IRAM_DRAM_CALC_w w dt x) = x.
Proof.
  intros Hx.
  rewrite SRAM1_DRAM_IRAM_CALC_w_exact, SRAM1_IRAM_DRAM_CALC_w_exact.
  unfold SRAM1_DRAM_IRAM_CALC at 1.
  replace (SRAM1_SIZE dt - (wrap w (SRAM1_IRAM_DRAM_CALC dt x) - SRAM1_DRAM_START dt)
           + SRAM1_IRAM_START dt)
    with (SRAM1_SIZE dt + SRAM1_DRAM_START dt + SRAM1_IRAM_START dt
          - wrap w (SRAM1_IRAM_DRAM_CALC dt x)) by lia.
  rewrite wrap_sub_r.
  replace (SRAM1_SIZE dt + SRAM1_DRAM_START dt + SRAM1_IRAM_START dt
           - SRAM1_IRAM_DRAM_CALC dt x) with x
    by (unfold SRAM1_IRAM_DRAM_CALC; lia).
  apply wrap_small. exact Hx.
Qed.

Lemma SRAM1_IRAM_DRAM_CALC_w_inverse (w : Z) (dt : devicetree) (y : Z) :
  0 <= y < 2 ^ w ->
  SRAM1_IRAM_DRAM_CALC_w w dt (SRAM1_DRAM_IRAM_CALC_w w dt y) = y.
Proof.
  intros Hy.
  rewrite SRAM1_IRAM_DRAM_CALC_w_exact, SRAM1_DRAM_IRAM_CALC_w_exact.
  unfold SRAM1_IRAM_DRAM_CALC at 1.
  replace (SRAM1_SIZE dt - (wrap w (SRAM1_DRAM_IRAM_CALC dt y) - SRAM1_IRAM_START dt)
           + SRAM1_DRAM_START dt)
    with (SRAM1_SIZE dt + SRAM1_IRAM_START dt + SRAM1_DRAM_START dt
          - wrap w (SRAM1_DRAM_IRAM_CALC dt y)) by lia.
  rewrite wrap_sub_r.
  replace (SRAM1_SIZE dt + SRAM1_IRAM_START dt + SRAM1_DRAM_START dt
           - SRAM1_DRAM_IRAM_CALC dt y) with y
    by (unfold SRAM1_DRAM_IRAM_CALC; lia).
  apply wrap_small. exact Hy.
Qed.

(** C1.  With [I0 = SRAM1_IRAM_START], [D0 = SRAM1_DRAM_START] and
    [S = SRAM1_SIZE], the translators [SRAM1_IRAM_DRAM_CALC] (to the data
    bus) and [SRAM1_DRAM_IRAM_CALC] (to the instruction bus) are inverse to
    each other: translating an instruction-bus address [x] of [[I0, I0+S)]
    to the data bus and back gives [x], and translating a data-bus address
    [y] of [[D0, D0+S)] to the instruction bus and back gives [y]. *)
Theorem translators_inverse (dt : devicetree) (x y : Z) :
  SRAM1_IRAM_START dt <= x < SRAM1_IRAM_START dt + SRAM1_SIZE dt ->
  SRAM1_DRAM_START dt <= y < SRAM1_DRAM_START dt + SRAM1_SIZE dt ->
  SRAM1_DRAM_IRAM_CALC dt (SRAM1_IRAM_DRAM_CALC dt x) = x /\
  SRAM1_IRAM_DRAM_CALC dt (SRAM1_DRAM_IRAM_CALC dt y) = y.
Proof.
  intros _ _. split.
  - apply SRAM1_DRAM_IRAM_CALC_inverse.
  - apply SRAM1_IRAM_DRAM_CALC_inverse.
Qed.

(** At the ESP32 banks: instruction-bus address 0x400b1234 and data-bus
    address 0x3ffe4321 both lie in SRAM1 and survive the round trip. *)
Lemma translators_inverse_esp32 :
  (SRAM1_IRAM_START esp32_dt <= 0x400b1234 < SRAM1_IRAM_START esp32_dt + SRAM1_SIZE esp32_dt) /\
  (SRAM1_DRAM_START esp32_dt <= 0x3ffe4321 < SRAM1_DRAM_START esp32_dt + SRAM1_SIZE esp32_dt) /\
  SRAM1_DRAM_IRAM_CALC esp32_dt (SRAM1_IRAM_DRAM_CALC esp32_dt 0x400b1234) = 0x400b1234 /\
  SRAM1_IRAM_DRAM_CALC esp32_dt (SRAM1_DRAM_IRAM_CALC esp32_dt 0x3ffe4321) = 0x3ffe4321.
Proof.
  assert (Hx : SRAM1_IRAM_START esp32_dt <= 0x400b1234
               < SRAM1_IRAM_START esp32_dt + SRAM1_SIZE esp32_dt)
    by (vm_compute; split; [discriminate | reflexivity]).
  assert (Hy : SRAM1_DRAM_START esp32_dt <= 0x3ffe4321
               < SRAM1_DRAM_START esp32_dt + SRAM1_SIZE esp32_dt)
    by (vm_compute; split; [discriminate | reflexivity]).
  exact (conj Hx (conj Hy (translators_inverse esp32_dt 0x400b1234 0x3ffe4321 Hx Hy))).
Defined.


Example esp32_bank_boundaries :
  SRAM1_IRAM_DRAM_CALC esp32_dt 0x400b0000 = 0x40000000 /\
  SRAM1_IRAM_DRAM_CALC esp32_dt 0x400d0000 = 0x3ffe0000.
Proof. split; reflexivity. Qed.

(** ** Cache and head reservation *)

(** C4.  The cache region starts at the base of SRAM0 and its size depends
    on the "App" CPU toggle alone: twice the single-CPU cache size (64 KiB)
    with the "App" CPU disabled, the single-CPU cache size (32 KiB) with it
    enabled; the dual-CPU size is exactly twice the single-CPU size. *)
Theorem cache_region_by_toggle (dt : devicetree) (cfg : kconfig) :
  START (cache_region dt cfg) = SRAM0_START dt /\
  SIZE (cache_region dt cfg) =
    (if appcpu_enabled cfg then CACHE_SIZE_SINGLE_CPU else 2 * CACHE_SIZE_SINGLE_CPU) /\
  SIZE (cache_region dt cfg) = (if appcpu_enabled cfg then 0x8000 else 0x10000) /\
  CACHE_SIZE_DUAL_CPU = 2 * CACHE_SIZE_SINGLE_CPU.
Proof.
  unfold cache_region, CACHE_START, CACHE_SIZE; simpl.
  destruct (appcpu_enabled cfg); repeat split.
Qed.

(** C3.  The reservation at the head of SRAM0 is the maximum of the cache
    size and the bootloader reservation, the latter being the single-CPU
    cache size plus the loader size when a second stage bootloader is
    configured and 0 otherwise; the application IRAM starts that far into
    SRAM0.  With a 16 KiB loader and the "App" CPU disabled it is
    max(64 KiB, 48 KiB) = 64 KiB. *)
Theorem head_reservation_max (dt : devicetree) (cfg : kconfig) :
  IRAM_RESERVED cfg = Z.max (CACHE_SIZE cfg) (BOOTLOADER_IRAM_RESERVED cfg) /\
  BOOTLOADER_IRAM_RESERVED cfg =
    (if mcuboot_enabled cfg
     then CACHE_SIZE_SINGLE_CPU + CONFIG_ESP32_MCUBOOT_IRAM cfg else 0) /\
  IRAM_START dt cfg =
    SRAM0_START dt + Z.max (CACHE_SIZE cfg) (BOOTLOADER_IRAM_RESERVED cfg) /\
  (mcuboot_enabled cfg = true ->
   CONFIG_ESP32_MCUBOOT_IRAM cfg = 0x4000 ->
   appcpu_enabled cfg = false ->
   CACHE_SIZE cfg = 0x10000 /\
   BOOTLOADER_IRAM_RESERVED cfg = 0xc000 /\
   IRAM_RESERVED cfg = 0x10000).
Proof.
  split; [apply IRAM_RESERVED_max |].
  split; [reflexivity |].
  split; [unfold IRAM_START; rewrite IRAM_RESERVED_max; reflexivity |].
  intros Hm Hl Ha.
  rewrite IRAM_RESERVED_max.
  unfold CACHE_SIZE, BOOTLOADER_IRAM_RESERVED. rewrite Hm, Hl, Ha.
  repeat split.
Qed.

Lemma head_reservation_max_mcuboot_16k :
  mcuboot_enabled cfg_mcuboot_16k = true /\
  CONFIG_ESP32_MCUBOOT_IRAM cfg_mcuboot_16k = 0x4000 /\
  appcpu_enabled cfg_mcuboot_16k = false /\
  IRAM_RESERVED cfg_mcuboot_16k = 0x10000.
Proof.
  split; [reflexivity |]. split; [reflexivity |]. split; [reflexivity |].
  apply (proj2 (proj2 (proj2 (head_reservation_max esp32_dt cfg_mcuboot_16k))));
    reflexivity.
Defined.

(** ** Regions of the instruction bus *)

(** With the "App" CPU disabled the cache region is 64 KiB and the critical
    loader segment, which starts 32 KiB into SRAM0, lies inside it as long
    as it is at most 32 KiB: the segment is "hidden" in the cache area. *)
Lemma loader_critical_inside_cache (dt : devicetree) (cfg : kconfig) (lc : region) (a : Z) :
  appcpu_enabled cfg = false ->
  CONFIG_ESP32_MCUBOOT_IRAM cfg <= CACHE_SIZE_SINGLE_CPU ->
  loader_critical_region dt cfg = Some lc ->
  contains lc a -> contains (cache_region dt cfg) a.
Proof.
  intros Ha Hl Hlc Hin.
  destruct (mcuboot_enabled cfg) eqn:Hm.
  - destruct (loader_regions_defined dt cfg Hm) as [E _].
    rewrite E in Hlc. injection Hlc as <-.
    revert Hin. autounfold with macros; simpl. rewrite Ha.
    unfold CACHE_SIZE_SINGLE_CPU, CACHE_SIZE_DUAL_CPU in *. lia.
  - destruct (loader_regions_undefined dt cfg Hm) as [E _].
    rewrite E in Hlc. discriminate.
Qed.

Lemma admissible_mcuboot_16k : admissible esp32_dt cfg_mcuboot_16k.
Proof.
  unfold admissible. autounfold with macros. simpl.
  unfold IRAM_RESERVED, CACHE_SIZE_SINGLE_CPU, SRAM1_RESERVED; simpl.
  repeat split; try lia; intros; try lia; discriminate.
Qed.

Lemma admissible_amp_mcuboot : admissible esp32_dt cfg_amp_mcuboot.
Proof.
  unfold admissible. autounfold with macros. simpl.
  unfold IRAM_RESERVED, CACHE_SIZE_SINGLE_CPU, SRAM1_RESERVED; simpl.
  repeat split; try lia; intros; try lia; discriminate.
Qed.

(** C2, as stated, fails.  A single-core build booted by MCUboot with a
    16 KiB loader segment is admissible; the header then defines the cache
    region [[0x40080000, 0x40090000)] and the critical loader region
    [[0x40088000, 0x4008c000)], which share the address 0x40088000, and the
    reclaimable loader region [[0x4008c000, 0x400b0000)] shares the address
    0x40090000 with the application IRAM [[0x40090000, 0x400c8000)]. *)
Lemma instruction_bus_overlap_mcuboot_16k :
  admissible esp32_dt cfg_mcuboot_16k /\
  instruction_bus_regions esp32_dt cfg_mcuboot_16k =
    [ mk_region 0x40080000 0x10000; mk_region 0x40088000 0x4000;
      mk_region 0x4008c000 0x24000; mk_region 0x40090000 0x38000 ] /\
  overlap (mk_region 0x40080000 0x10000) (mk_region 0x40088000 0x4000) /\
  overlap (mk_region 0x4008c000 0x24000) (mk_region 0x40090000 0x38000) /\
  ~ pairwise_disjoint (instruction_bus_regions esp32_dt cfg_mcuboot_16k).
Proof.
  split; [exact admissible_mcuboot_16k |].
  split; [reflexivity |].
  split; [exists 0x40088000; unfold contains, END; simpl; lia |].
  split; [exists 0x40090000; unfold contains, END; simpl; lia |].
  intros H.
  change (instruction_bus_regions esp32_dt cfg_mcuboot_16k)
    with [ mk_region 0x40080000 0x10000; mk_region 0x40088000 0x4000;
           mk_region 0x4008c000 0x24000; mk_region 0x40090000 0x38000 ] in H.
  inversion H as [| r l Hhd _]; subst.
  apply Forall_inv in Hhd.
  apply (Hhd 0x40088000). unfold contains, END; simpl. lia.
Qed.

(** C2, amended.  The application IRAM is disjoint from the cache region
    and from the critical loader region, and the two loader regions are
    disjoint from each other; with the "App" CPU enabled the cache region
    is disjoint from the critical loader region and, for a non-negative
    loader size, from the reclaimable loader region. *)
Theorem instruction_bus_disjointness (dt : devicetree) (cfg : kconfig) :
  disjoint (cache_region dt cfg) (iram_region dt cfg) /\
  (forall lc lr : region,
     loader_critical_region dt cfg = Some lc ->
     loader_reclaimable_region dt cfg = Some lr ->
     disjoint lc (iram_region dt cfg) /\
     disjoint lc lr /\
     (appcpu_enabled cfg = true ->
      disjoint (cache_region dt cfg) lc /\
      (0 <= CONFIG_ESP32_MCUBOOT_IRAM cfg -> disjoint (cache_region dt cfg) lr))).
Proof.
  split.
  - apply disjoint_of_order.
    pose proof (IRAM_RESERVED_ge_cache cfg).
    unfold END, cache_region, iram_region, IRAM_START, CACHE_START; simpl. lia.
  - intros lc lr Hlc Hlr.
    destruct (mcuboot_enabled cfg) eqn:Hm.
    + destruct (loader_regions_defined dt cfg Hm) as [E1 E2].
      rewrite E1 in Hlc. rewrite E2 in Hlr.
      injection Hlc as <-. injection Hlr as <-.
      pose proof (IRAM_RESERVED_ge_loader cfg) as Hge.
      unfold BOOTLOADER_IRAM_RESERVED in Hge. rewrite Hm in Hge.
      split; [| split].
      * apply disjoint_of_order. unfold END, iram_region, IRAM_START; simpl. lia.
      * apply disjoint_of_order. unfold END; simpl. lia.
      * intros Ha. split.
        -- apply disjoint_of_order.
           unfold END, cache_region, CACHE_START, CACHE_SIZE; simpl.
           rewrite Ha. lia.
        -- intros Hl. apply disjoint_of_order.
           unfold END, cache_region, CACHE_START, CACHE_SIZE; simpl.
           rewrite Ha. lia.
    + destruct (loader_regions_undefined dt cfg Hm) as [E _].
      rewrite E in Hlc. discriminate.
Qed.

(** On a dual-core build booted by MCUboot all five facts apply. *)
Lemma instruction_bus_disjointness_amp_mcuboot :
  loader_critical_region esp32_dt cfg_amp_mcuboot = Some (mk_region 0x40088000 0x4000) /\
  loader_reclaimable_region esp32_dt cfg_amp_mcuboot = Some (mk_region 0x4008c000 0x24000) /\
  appcpu_enabled cfg_amp_mcuboot = true /\
  0 <= CONFIG_ESP32_MCUBOOT_IRAM cfg_amp_mcuboot /\
  disjoint (mk_region 0x40088000 0x4000) (iram_region esp32_dt cfg_amp_mcuboot) /\
  disjoint (mk_region 0x40088000 0x4000) (mk_region 0x4008c000 0x24000) /\
  disjoint (cache_region esp32_dt cfg_amp_mcuboot) (mk_region 0x40088000 0x4000) /\
  disjoint (cache_region esp32_dt cfg_amp_mcuboot) (mk_region 0x4008c000 0x24000).
Proof.
  assert (H0 : 0 <= CONFIG_ESP32_MCUBOOT_IRAM cfg_amp_mcuboot) by (simpl; lia).
  destruct (proj2 (instruction_bus_disjointness esp32_dt cfg_amp_mcuboot)
              (mk_region 0x40088000 0x4000) (mk_region 0x4008c000 0x24000)
              eq_refl eq_refl) as [H1 [H2 H3]].
  destruct (H3 eq_refl) as [H4 H5].
  exact (conj eq_refl (conj eq_refl (conj eq_refl
          (conj H0 (conj H1 (conj H2 (conj H4 (H5 H0)))))))).
Defined.

(** ** No validation *)

(** Expanding the header never stops the build. *)
Lemma resolve_total (dt : devicetree) (cfg : kconfig) :
  exists l, resolve dt cfg = Some l.
Proof. eexists. reflexivity. Qed.

(** C6, as stated, fails.  With MCUboot and a 176 KiB loader segment on a
    192 KiB SRAM0 the loader does not fit (176 KiB >= 192 KiB - 32 KiB),
    yet the header yields a layout, whose reclaimable loader region has
    size [BOOTLOADER_IRAM_SIZE = -16384]. *)
Lemma oversized_loader_is_resolved :
  mcuboot_enabled cfg_mcuboot_oversized = true /\
  CONFIG_ESP32_MCUBOOT_IRAM cfg_mcuboot_oversized
    >= SRAM0_SIZE esp32_dt - CACHE_SIZE_SINGLE_CPU /\
  resolve esp32_dt cfg_mcuboot_oversized <> None /\
  BOOTLOADER_IRAM_SIZE esp32_dt cfg_mcuboot_oversized = Some (-16384) /\
  exists l, resolve esp32_dt cfg_mcuboot_oversized = Some l /\
            loader_reclaimable l = Some (mk_region 0x400b4000 (-16384)).
Proof.
  split; [reflexivity |].
  split; [vm_compute; discriminate |].
  split; [discriminate |].
  split; [reflexivity |].
  eexists. split; reflexivity.
Qed.

(** C6, amended.  With a second stage bootloader configured the header
    checks nothing: a layout is always produced, with the critical loader
    region of the configured size 32 KiB into SRAM0 and, after it, the
    reclaimable region of size
    [SRAM0_SIZE - (CACHE_SIZE_SINGLE_CPU + CONFIG_ESP32_MCUBOOT_IRAM)];
    that size is zero or negative exactly when the loader size is at least
    [SRAM0_SIZE - CACHE_SIZE_SINGLE_CPU]. *)
Theorem loader_size_unchecked (dt : devicetree) (cfg : kconfig) :
  mcuboot_enabled cfg = true ->
  exists l lr,
    resolve dt cfg = Some l /\
    loader_critical l =
      Some (mk_region (SRAM0_START dt + CACHE_SIZE_SINGLE_CPU)
                      (CONFIG_ESP32_MCUBOOT_IRAM cfg)) /\
    loader_reclaimable l = Some lr /\
    START lr = SRAM0_START dt + CACHE_SIZE_SINGLE_CPU + CONFIG_ESP32_MCUBOOT_IRAM cfg /\
    SIZE lr = SRAM0_SIZE dt - (CACHE_SIZE_SINGLE_CPU + CONFIG_ESP32_MCUBOOT_IRAM cfg) /\
    BOOTLOADER_IRAM_SIZE dt cfg = Some (SIZE lr) /\
    (CONFIG_ESP32_MCUBOOT_IRAM cfg >= SRAM0_SIZE dt - CACHE_SIZE_SINGLE_CPU
     <-> SIZE lr <= 0).
Proof.
  intros Hm.
  destruct (loader_regions_defined dt cfg Hm) as [E1 E2].
  eexists.
  exists (mk_region
            (SRAM0_START dt + CACHE_SIZE_SINGLE_CPU + CONFIG_ESP32_MCUBOOT_IRAM cfg)
            (SRAM0_SIZE dt - (CACHE_SIZE_SINGLE_CPU + CONFIG_ESP32_MCUBOOT_IRAM cfg))).
  split; [reflexivity |].
  split; [exact E1 |].
  split; [exact E2 |].
  split; [reflexivity |].
  split; [reflexivity |].
  split.
  - unfold BOOTLOADER_IRAM_SIZE, BOOTLOADER_IRAM_RESERVED. rewrite Hm. reflexivity.
  - cbn [SIZE]. lia.
Qed.

Lemma loader_size_unchecked_oversized :
  mcuboot_enabled cfg_mcuboot_oversized = true /\
  exists l lr,
    resolve esp32_dt cfg_mcuboot_oversized = Some l /\
    loader_reclaimable l = Some lr /\
    SIZE lr = SRAM0_SIZE esp32_dt
              - (CACHE_SIZE_SINGLE_CPU + CONFIG_ESP32_MCUBOOT_IRAM cfg_mcuboot_oversized).
Proof.
  split; [reflexivity |].
  destruct (loader_size_unchecked esp32_dt cfg_mcuboot_oversized eq_refl)
    as [l [lr [H1 [_ [H3 [_ [H5 _]]]]]]].
  exists l, lr. exact (conj H1 (conj H3 H5)).
Defined.

(** C7, as stated, fails.  With a 128 KiB heap on the 128 KiB SRAM1 the heap
    and the 32 KiB reserved at the start of the bank exceed the bank, yet the
    header yields a layout, in which [SRAM1_IRAM_SIZE = -32768]. *)
Lemma oversized_heap_is_resolved :
  CONFIG_ESP32_SRAM1_HEAP_SIZE cfg_heap_oversized + SRAM1_RESERVED
    > SRAM1_SIZE esp32_dt /\
  resolve esp32_dt cfg_heap_oversized <> None /\
  SRAM1_IRAM_SIZE esp32_dt cfg_heap_oversized = -32768 /\
  exists l, resolve esp32_dt cfg_heap_oversized = Some l /\
            sram1_iram_size l = -32768 /\
            heap l = mk_region 0x3ffe8000 0x20000.
Proof.
  split; [vm_compute; reflexivity |].
  split; [discriminate |].
  split; [reflexivity |].
  eexists. split; [reflexivity |]. split; reflexivity.
Qed.

(** C7, amended.  The header checks nothing about the heap: a layout is
    always produced, with the heap region of the configured size 32 KiB
    into SRAM1 and the IRAM extension of size
    [SRAM1_SIZE - SRAM1_RESERVED - CONFIG_ESP32_SRAM1_HEAP_SIZE]; the
    extension size is negative exactly when the heap plus the 32 KiB
    exceed the bank. *)
Theorem heap_size_unchecked (dt : devicetree) (cfg : kconfig) :
  exists l,
    resolve dt cfg = Some l /\
    heap l = mk_region (SRAM1_START dt + 0x8000) (CONFIG_ESP32_SRAM1_HEAP_SIZE cfg) /\
    sram1_iram_size l = SRAM1_SIZE dt - 0x8000 - CONFIG_ESP32_SRAM1_HEAP_SIZE cfg /\
    SRAM1_IRAM_SIZE dt cfg = sram1_iram_size l /\
    SIZE (iram l) = SRAM0_SIZE dt - IRAM_RESERVED cfg + sram1_iram_size l /\
    (CONFIG_ESP32_SRAM1_HEAP_SIZE cfg + SRAM1_RESERVED > SRAM1_SIZE dt
     <-> sram1_iram_size l < 0).
Proof.
  eexists. split; [reflexivity |]. simpl.
  split; [reflexivity |].
  split; [reflexivity |].
  split; [reflexivity |].
  split; [reflexivity |].
  unfold SRAM1_IRAM_SIZE, SRAM1_RESERVED. lia.
Qed.

(** ** Per-core split *)

(** C8.  Changing only the two "App" CPU size symbols leaves the start of
    the "Pro" CPU IRAM and DRAM (and the combined pools) unchanged; the
    "App" CPU regions end where the pools end, and what changes is the
    size of the "Pro" CPU regions. *)
Theorem procpu_start_invariant (dt : devicetree) (cfg : kconfig) (iram_size dram_size : Z) :
  PROCPU_IRAM_START dt (with_appcpu_sizes cfg iram_size dram_size)
    = PROCPU_IRAM_START dt cfg /\
  PROCPU_DRAM_START dt (with_appcpu_sizes cfg iram_size dram_size)
    = PROCPU_DRAM_START dt cfg /\
  iram_region dt (with_appcpu_sizes cfg iram_size dram_size) = iram_region dt cfg /\
  dram_region dt (with_appcpu_sizes cfg iram_size dram_size) = dram_region dt cfg /\
  END (appcpu_iram_region dt (with_appcpu_sizes cfg iram_size dram_size))
    = END (iram_region dt cfg) /\
  END (appcpu_dram_region dt (with_appcpu_sizes cfg iram_size dram_size))
    = END (dram_region dt cfg) /\
  PROCPU_IRAM_SIZE dt (with_appcpu_sizes cfg iram_size dram_size)
    = IRAM_SIZE dt cfg - (if appcpu_enabled cfg then iram_size else 0) /\
  PROCPU_DRAM_SIZE dt (with_appcpu_sizes cfg iram_size dram_size)
    = DRAM_SIZE dt cfg - (if appcpu_enabled cfg then dram_size else 0).
Proof.
  repeat split; try reflexivity.
  - unfold END, appcpu_iram_region, iram_region, APPCPU_IRAM_START; simpl.
    change (IRAM_START dt (with_appcpu_sizes cfg iram_size dram_size))
      with (IRAM_START dt cfg).
    change (IRAM_SIZE dt (with_appcpu_sizes cfg iram_size dram_size))
      with (IRAM_SIZE dt cfg).
    lia.
  - unfold END, appcpu_dram_region, dram_region, APPCPU_DRAM_START; simpl.
    change (DRAM_START dt (with_appcpu_sizes cfg iram_size dram_size))
      with (DRAM_START dt cfg).
    change (DRAM_SIZE dt (with_appcpu_sizes cfg iram_size dram_size))
      with (DRAM_SIZE dt cfg).
    lia.
Qed.

Example esp32_procpu_start_fixed :
  PROCPU_IRAM_START esp32_dt (with_appcpu cfg_default 0x6000 0x4000) = 0x40088000 /\
  PROCPU_IRAM_START esp32_dt (with_appcpu cfg_default 0x10000 0x8000) = 0x40088000 /\
  PROCPU_IRAM_SIZE esp32_dt (with_appcpu cfg_default 0x6000 0x4000) = 0x3a000 /\
  PROCPU_IRAM_SIZE esp32_dt (with_appcpu cfg_default 0x10000 0x8000) = 0x30000.
Proof. repeat split. Qed.

(** C10.  The per-core split tiles each pool: the "Pro" and "App" CPU sizes
    add up to the pool size and the "App" CPU region starts where the "Pro"
    CPU region ends, for IRAM and for DRAM, so that the two regions are
    adjacent and, for non-negative sizes, disjoint; with the "App" CPU
    disabled both its sizes are 0 and the "Pro" CPU regions are the
    pools. *)
Theorem per_core_split_tiles (dt : devicetree) (cfg : kconfig) :
  PROCPU_IRAM_SIZE dt cfg + APPCPU_IRAM_SIZE cfg = IRAM_SIZE dt cfg /\
  APPCPU_IRAM_START dt cfg = PROCPU_IRAM_START dt cfg + PROCPU_IRAM_SIZE dt cfg /\
  PROCPU_DRAM_SIZE dt cfg + APPCPU_DRAM_SIZE cfg = DRAM_SIZE dt cfg /\
  APPCPU_DRAM_START dt cfg = PROCPU_DRAM_START dt cfg + PROCPU_DRAM_SIZE dt cfg /\
  (0 <= PROCPU_IRAM_SIZE dt cfg -> 0 <= APPCPU_IRAM_SIZE cfg ->
   disjoint (procpu_iram_region dt cfg) (appcpu_iram_region dt cfg)) /\
  (0 <= PROCPU_DRAM_SIZE dt cfg -> 0 <= APPCPU_DRAM_SIZE cfg ->
   disjoint (procpu_dram_region dt cfg) (appcpu_dram_region dt cfg)) /\
  (appcpu_enabled cfg = false ->
   APPCPU_IRAM_SIZE cfg = 0 /\ APPCPU_DRAM_SIZE cfg = 0 /\
   procpu_iram_region dt cfg = iram_region dt cfg /\
   procpu_dram_region dt cfg = dram_region dt cfg).
Proof.
  split; [unfold PROCPU_IRAM_SIZE; lia |].
  split; [unfold APPCPU_IRAM_START, PROCPU_IRAM_START, PROCPU_IRAM_SIZE; lia |].
  split; [unfold PROCPU_DRAM_SIZE; lia |].
  split; [unfold APPCPU_DRAM_START, PROCPU_DRAM_START, PROCPU_DRAM_SIZE; lia |].
  split; [intros _ _; apply disjoint_of_order;
          rewrite procpu_appcpu_iram_adjacent; lia |].
  split; [intros _ _; apply disjoint_of_order;
          rewrite procpu_appcpu_dram_adjacent; lia |].
  intros Ha.
  unfold procpu_iram_region, procpu_dram_region, iram_region, dram_region,
    PROCPU_IRAM_START, PROCPU_IRAM_SIZE, PROCPU_DRAM_START, PROCPU_DRAM_SIZE,
    APPCPU_IRAM_SIZE, APPCPU_DRAM_SIZE.
  rewrite Ha.
  repeat split; f_equal; lia.
Qed.

(** The split of a dual-core build, and the degenerate split of a
    single-core build. *)
Lemma per_core_split_tiles_esp32 :
  (0 <= PROCPU_IRAM_SIZE esp32_dt cfg_amp_mcuboot /\
   0 <= APPCPU_IRAM_SIZE cfg_amp_mcuboot /\
   disjoint (procpu_iram_region esp32_dt cfg_amp_mcuboot)
            (appcpu_iram_region esp32_dt cfg_amp_mcuboot)) /\
  (0 <= PROCPU_DRAM_SIZE esp32_dt cfg_amp_mcuboot /\
   0 <= APPCPU_DRAM_SIZE cfg_amp_mcuboot /\
   disjoint (procpu_dram_region esp32_dt cfg_amp_mcuboot)
            (appcpu_dram_region esp32_dt cfg_amp_mcuboot)) /\
  (appcpu_enabled cfg_default = false /\
   APPCPU_IRAM_SIZE cfg_default = 0 /\ APPCPU_DRAM_SIZE cfg_default = 0 /\
   procpu_iram_region esp32_dt cfg_default = iram_region esp32_dt cfg_default /\
   procpu_dram_region esp32_dt cfg_default = dram_region esp32_dt cfg_default).
Proof.
  assert (Hpi : 0 <= PROCPU_IRAM_SIZE esp32_dt cfg_amp_mcuboot)
    by (vm_compute; discriminate).
  assert (Hai : 0 <= APPCPU_IRAM_SIZE cfg_amp_mcuboot)
    by (vm_compute; discriminate).
  assert (Hpd : 0 <= PROCPU_DRAM_SIZE esp32_dt cfg_amp_mcuboot)
    by (vm_compute; discriminate).
  assert (Had : 0 <= APPCPU_DRAM_SIZE cfg_amp_mcuboot)
    by (vm_compute; discriminate).
  destruct (per_core_split_tiles esp32_dt cfg_amp_mcuboot)
    as [_ [_ [_ [_ [Hi [Hd _]]]]]].
  destruct (per_core_split_tiles esp32_dt cfg_default)
    as [_ [_ [_ [_ [_ [_ Hoff]]]]]].
  exact (conj (conj Hpi (conj Hai (Hi Hpi Hai)))
          (conj (conj Hpd (conj Had (Hd Hpd Had)))
             (conj eq_refl (Hoff eq_refl)))).
Defined.

(** ** Flash *)

(** C9, as stated, fails.  The code partition of the devicetree is handed
    on as it is: for a partition of 0x1e0000 bytes [FLASH_CODE_SIZE] is
    0x1e0000, not 0x1e0000 - 0x1000.  The 4 KiB are taken off the flash
    size, in the lengths of the two cached segments, and no alignment is
    applied to these: with a 64 KiB MMU page the length 0x3ff000 is not a
    multiple of [CACHE_ALIGN], and it is the same for any other page size;
    [CACHE_ALIGN] is not a fixed constant either but the configured page
    size. *)
Lemma flash_code_partition_untrimmed :
  DT_REG_SIZE (zephyr_code_partition esp32_dt) = 0x1e0000 /\
  FLASH_CODE_SIZE esp32_dt = 0x1e0000 /\
  FLASH_CODE_SIZE esp32_dt <> DT_REG_SIZE (zephyr_code_partition esp32_dt) - 0x1000 /\
  (exists l, resolve esp32_dt cfg_default = Some l /\
             SIZE (code_partition l) = 0x1e0000 /\
             SIZE (flash_code l) = 0x3ff000 /\
             cache_align l = 0x10000 /\
             SIZE (flash_code l) mod cache_align l = 0xf000) /\
  IROM_SEG_LEN cfg_default mod CACHE_ALIGN cfg_default <> 0 /\
  DROM_SEG_LEN cfg_default mod CACHE_ALIGN cfg_default <> 0 /\
  CACHE_ALIGN (with_mmu_page_size cfg_default 0x8000) <> CACHE_ALIGN cfg_default /\
  IROM_SEG_LEN (with_mmu_page_size cfg_default 0x8000) = IROM_SEG_LEN cfg_default.
Proof.
  split; [reflexivity |].
  split; [reflexivity |].
  split; [vm_compute; discriminate |].
  split; [eexists; repeat split |].
  split; [vm_compute; discriminate |].
  split; [vm_compute; discriminate |].
  split; [vm_compute; discriminate |].
  reflexivity.
Qed.

(** C9, amended.  The flash code partition is the devicetree's, address and
    size unchanged.  The two cached segments have the fixed origins
    0x400d0000 and 0x3f400000 and the length [FLASH_SIZE - 0x1000], where
    [FLASH_SIZE] is the configured flash size, 4 MiB when none is
    configured.  [CACHE_ALIGN] is the configured MMU page size; it is
    defined and applied to nothing: the segment lengths are the same for
    every page size.  Nothing else enters: configurations with the same
    flash size have the same segments. *)
Theorem flash_macros_as_defined (dt : devicetree) (cfg : kconfig) :
  FLASH_CODE_START dt = DT_REG_ADDR (zephyr_code_partition dt) /\
  FLASH_CODE_SIZE dt = DT_REG_SIZE (zephyr_code_partition dt) /\
  FLASH_SIZE cfg = match CONFIG_FLASH_SIZE cfg with Some n => n | None => 0x400000 end /\
  IROM_SEG_ORG = 0x400d0000 /\
  DROM_SEG_ORG = 0x3f400000 /\
  IROM_SEG_LEN cfg = FLASH_SIZE cfg - 0x1000 /\
  DROM_SEG_LEN cfg = FLASH_SIZE cfg - 0x1000 /\
  CACHE_ALIGN cfg = CONFIG_MMU_PAGE_SIZE cfg /\
  (forall n : Z,
     IROM_SEG_LEN (with_mmu_page_size cfg n) = IROM_SEG_LEN cfg /\
     DROM_SEG_LEN (with_mmu_page_size cfg n) = DROM_SEG_LEN cfg /\
     CACHE_ALIGN (with_mmu_page_size cfg n) = n) /\
  (forall cfg' : kconfig,
     CONFIG_FLASH_SIZE cfg' = CONFIG_FLASH_SIZE cfg ->
     IROM_SEG_LEN cfg' = IROM_SEG_LEN cfg /\ DROM_SEG_LEN cfg' = DROM_SEG_LEN cfg) /\
  (exists l,
     resolve dt cfg = Some l /\
     code_partition l = mk_region (DT_REG_ADDR (zephyr_code_partition dt))
                                  (DT_REG_SIZE (zephyr_code_partition dt)) /\
     flash_code l = mk_region 0x400d0000 (FLASH_SIZE cfg - 0x1000) /\
     flash_data l = mk_region 0x3f400000 (FLASH_SIZE cfg - 0x1000) /\
     cache_align l = CONFIG_MMU_PAGE_SIZE cfg).
Proof.
  do 8 (split; [reflexivity |]).
  split; [intros n; repeat split |].
  split.
  - intros cfg' H. unfold IROM_SEG_LEN, DROM_SEG_LEN, FLASH_SIZE.
    rewrite H. split; reflexivity.
  - eexists. split; [reflexivity |]. repeat split.
Qed.

Lemma flash_macros_as_defined_esp32 :
  CONFIG_FLASH_SIZE cfg_amp_mcuboot = CONFIG_FLASH_SIZE cfg_default /\
  IROM_SEG_LEN cfg_amp_mcuboot = IROM_SEG_LEN cfg_default /\
  DROM_SEG_LEN cfg_amp_mcuboot = DROM_SEG_LEN cfg_default.
Proof.
  destruct (flash_macros_as_defined esp32_dt cfg_default)
    as [_ [_ [_ [_ [_ [_ [_ [_ [_ [H _]]]]]]]]]].
  exact (conj eq_refl (H cfg_amp_mcuboot eq_refl)).
Defined.

Example flash_regions_default :
  flash_code_region cfg_default = mk_region 0x400d0000 0x3ff000 /\
  flash_data_region cfg_default = mk_region 0x3f400000 0x3ff000.
Proof. split; reflexivity. Qed.

(** The start of the "Pro" CPU IRAM does depend on the "App" CPU toggle
    itself, through the cache size: without a bootloader it is 64 KiB into
    SRAM0 on a single-core build and 32 KiB on a dual-core build. *)
Example procpu_iram_start_by_toggle :
  PROCPU_IRAM_START esp32_dt cfg_default = 0x40090000 /\
  PROCPU_IRAM_START esp32_dt (with_appcpu cfg_default 0 0) = 0x40088000.
Proof. split; reflexivity. Qed.

(** * Further properties of the layout *)

(** ** The IRAM pool *)

Lemma Some_eq_inv {A : Type} (x y : A) : Some x = Some y -> x = y.
Proof. congruence. Qed.

Lemma END_iram_region (dt : devicetree) (cfg : kconfig) :
  END (iram_region dt cfg) = SRAM1_IRAM_START dt + SRAM1_IRAM_SIZE dt cfg.
Proof.
  unfold END, iram_region, IRAM_START, IRAM_SIZE, SRAM1_IRAM_START; simpl. lia.
Qed.

Lemma END_dram_region (dt : devicetree) (cfg : kconfig) :
  END (dram_region dt cfg) = END (sram2_bank dt).
Proof.
  unfold END, dram_region, sram2_bank, DRAM_START, DRAM_SIZE; cbn [START SIZE]. lia.
Qed.

(** X1.  Whatever the cache size and the bootloader reservation, the IRAM
    pool ends [SRAM1_IRAM_SIZE] bytes into the instruction-bus view of
    SRAM1, and the head reservation and the pool together make up SRAM0
    plus that extension. *)
Theorem iram_pool_end (dt : devicetree) (cfg : kconfig) :
  END (iram_region dt cfg) = SRAM1_IRAM_START dt + SRAM1_IRAM_SIZE dt cfg /\
  IRAM_RESERVED cfg + IRAM_SIZE dt cfg = SRAM0_SIZE dt + SRAM1_IRAM_SIZE dt cfg.
Proof.
  split; [apply END_iram_region |].
  unfold IRAM_SIZE. lia.
Qed.

(** X2.  Seen from the data bus, the IRAM pool ends where the heap ends:
    the translators exchange the end of the pool and the end of the heap
    region, and the "App" CPU IRAM starts, in data-bus terms, its own size
    above the end of the heap. *)
Theorem iram_end_is_heap_end (dt : devicetree) (cfg : kconfig) :
  SRAM1_IRAM_DRAM_CALC dt (END (iram_region dt cfg)) = END (heap_region dt cfg) /\
  SRAM1_DRAM_IRAM_CALC dt (END (heap_region dt cfg)) = END (iram_region dt cfg) /\
  SRAM1_IRAM_DRAM_CALC dt (APPCPU_IRAM_START dt cfg)
    = END (heap_region dt cfg) + APPCPU_IRAM_SIZE cfg.
Proof.
  pose proof (END_iram_region dt cfg) as He.
  unfold APPCPU_IRAM_START.
  change (IRAM_START dt cfg + IRAM_SIZE dt cfg) with (END (iram_region dt cfg)).
  rewrite He.
  unfold SRAM1_IRAM_DRAM_CALC, SRAM1_DRAM_IRAM_CALC, END, heap_region, HEAP_START,
    HEAP_SIZE, SRAM1_DRAM_SIZE, SRAM1_IRAM_SIZE, SRAM1_DRAM_START; simpl.
  lia.
Qed.

(** X3.  With a non-negative heap size every address of the IRAM pool lies
    at least 32 KiB above the start of SRAM0 and at least 32 KiB below the
    end of the instruction-bus view of SRAM1. *)
Theorem iram_pool_bounds (dt : devicetree) (cfg : kconfig) (a : Z) :
  0 <= CONFIG_ESP32_SRAM1_HEAP_SIZE cfg ->
  contains (iram_region dt cfg) a ->
  SRAM0_START dt + 0x8000 <= a < END (sram1_iram_view dt) - 0x8000.
Proof.
  intros Hh [Hlo Hhi].
  pose proof (END_iram_region dt cfg) as He. rewrite He in Hhi.
  pose proof (IRAM_RESERVED_ge_cache cfg) as Hc.
  destruct (CACHE_SIZE_cases cfg) as [E | E]; rewrite E in Hc;
    unfold iram_region, IRAM_START in Hlo; simpl in Hlo;
    unfold SRAM1_IRAM_SIZE, SRAM1_RESERVED in Hhi;
    unfold END, sram1_iram_view; simpl; lia.
Qed.

Lemma iram_pool_bounds_esp32 :
  0 <= CONFIG_ESP32_SRAM1_HEAP_SIZE cfg_amp_mcuboot /\
  contains (iram_region esp32_dt cfg_amp_mcuboot) 0x400b0000 /\
  SRAM0_START esp32_dt + 0x8000 <= 0x400b0000 < END (sram1_iram_view esp32_dt) - 0x8000.
Proof.
  assert (Hh : 0 <= CONFIG_ESP32_SRAM1_HEAP_SIZE cfg_amp_mcuboot)
    by (vm_compute; discriminate).
  assert (Hin : contains (iram_region esp32_dt cfg_amp_mcuboot) 0x400b0000)
    by (vm_compute; split; [discriminate | reflexivity]).
  exact (conj Hh (conj Hin (iram_pool_bounds esp32_dt cfg_amp_mcuboot 0x400b0000 Hh Hin))).
Defined.

(** X4.  No address of the IRAM pool that lies in SRAM1 translates into the
    heap or below it: its data-bus counterpart is above the end of the heap
    region and at most the end of SRAM1. *)
Theorem iram_extension_above_heap (dt : devicetree) (cfg : kconfig) (a : Z) :
  contains (iram_region dt cfg) a ->
  SRAM1_IRAM_START dt <= a ->
  END (heap_region dt cfg) < SRAM1_IRAM_DRAM_CALC dt a <= END (sram1_dram_view dt) /\
  ~ contains (heap_region dt cfg) (SRAM1_IRAM_DRAM_CALC dt a).
Proof.
  intros [_ Hhi] Hlo.
  pose proof (END_iram_region dt cfg) as He. rewrite He in Hhi.
  assert (H : END (heap_region dt cfg) < SRAM1_IRAM_DRAM_CALC dt a
              <= END (sram1_dram_view dt)).
  { unfold SRAM1_IRAM_DRAM_CALC, END, heap_region, sram1_dram_view, HEAP_START,
      HEAP_SIZE, SRAM1_DRAM_SIZE, SRAM1_DRAM_START; simpl.
    unfold SRAM1_IRAM_SIZE in Hhi. lia. }
  split; [exact H |].
  unfold contains. lia.
Qed.

Lemma iram_extension_above_heap_esp32 :
  contains (iram_region esp32_dt cfg_amp_mcuboot) 0x400b4000 /\
  SRAM1_IRAM_START esp32_dt <= 0x400b4000 /\
  ~ contains (heap_region esp32_dt cfg_amp_mcuboot)
             (SRAM1_IRAM_DRAM_CALC esp32_dt 0x400b4000).
Proof.
  assert (Hin : contains (iram_region esp32_dt cfg_amp_mcuboot) 0x400b4000)
    by (vm_compute; split; [discriminate | reflexivity]).
  assert (Hlo : SRAM1_IRAM_START esp32_dt <= 0x400b4000)
    by (vm_compute; discriminate).
  exact (conj Hin (conj Hlo
           (proj2 (iram_extension_above_heap esp32_dt cfg_amp_mcuboot 0x400b4000 Hin Hlo)))).
Defined.

(** ** The translators as a reflection *)

(** X5.  Each translator reverses the order of addresses and preserves
    distances: the sum of an address and its translation is the same for
    every address. *)
Theorem translators_reverse_order (dt : devicetree) (x x' : Z) :
  SRAM1_IRAM_DRAM_CALC dt x - SRAM1_IRAM_DRAM_CALC dt x' = x' - x /\
  SRAM1_DRAM_IRAM_CALC dt x - SRAM1_DRAM_IRAM_CALC dt x' = x' - x /\
  (x < x' <-> SRAM1_IRAM_DRAM_CALC dt x' < SRAM1_IRAM_DRAM_CALC dt x) /\
  (x < x' <-> SRAM1_DRAM_IRAM_CALC dt x' < SRAM1_DRAM_IRAM_CALC dt x) /\
  SRAM1_IRAM_DRAM_CALC dt x + x = SRAM1_IRAM_DRAM_CALC dt x' + x'.
Proof. unfold SRAM1_IRAM_DRAM_CALC, SRAM1_DRAM_IRAM_CALC. lia. Qed.

(** X6.  The translator to the data bus maps the closed range of the
    instruction-bus view of SRAM1 onto the closed range of its data-bus
    view, and the half-open view [[I0, I0 + S)] onto [(D0, D0 + S]]: the
    first instruction-bus address of the bank has no counterpart inside the
    half-open data-bus view. *)
Theorem translator_range (dt : devicetree) (x : Z) :
  (START (sram1_iram_view dt) <= x <= END (sram1_iram_view dt) <->
   START (sram1_dram_view dt) <= SRAM1_IRAM_DRAM_CALC dt x <= END (sram1_dram_view dt)) /\
  (contains (sram1_iram_view dt) x <->
   START (sram1_dram_view dt) < SRAM1_IRAM_DRAM_CALC dt x <= END (sram1_dram_view dt)) /\
  ~ contains (sram1_dram_view dt) (SRAM1_IRAM_DRAM_CALC dt (SRAM1_IRAM_START dt)).
Proof.
  unfold contains, END, sram1_iram_view, sram1_dram_view, SRAM1_IRAM_DRAM_CALC,
    SRAM1_DRAM_START; simpl.
  lia.
Qed.

(** ** What the bootloader and the "App" CPU cost *)

Lemma CACHE_SIZE_without_mcuboot (cfg : kconfig) :
  CACHE_SIZE (without_mcuboot cfg) = CACHE_SIZE cfg.
Proof. reflexivity. Qed.

Lemma IRAM_RESERVED_without_mcuboot (cfg : kconfig) :
  IRAM_RESERVED (without_mcuboot cfg) = CACHE_SIZE cfg.
Proof.
  rewrite IRAM_RESERVED_max, CACHE_SIZE_without_mcuboot.
  unfold BOOTLOADER_IRAM_RESERVED; simpl.
  destruct (CACHE_SIZE_cases cfg); lia.
Qed.

(** X7.  A second stage bootloader takes from the application's IRAM
    exactly what its reservation exceeds the cache by,
    [max 0 (CACHE_SIZE_SINGLE_CPU + CONFIG_ESP32_MCUBOOT_IRAM - CACHE_SIZE)].
    With the "App" CPU disabled a loader segment of at most 32 KiB costs
    nothing (the IRAM pool is the one of a build without bootloader); with
    the "App" CPU enabled a non-negative loader size moves the start of the
    pool up by that size. *)
Theorem bootloader_iram_cost (dt : devicetree) (cfg : kconfig) :
  mcuboot_enabled cfg = true ->
  IRAM_SIZE dt (without_mcuboot cfg) - IRAM_SIZE dt cfg
    = Z.max 0 (CACHE_SIZE_SINGLE_CPU + CONFIG_ESP32_MCUBOOT_IRAM cfg - CACHE_SIZE cfg) /\
  IRAM_START dt cfg - IRAM_START dt (without_mcuboot cfg)
    = Z.max 0 (CACHE_SIZE_SINGLE_CPU + CONFIG_ESP32_MCUBOOT_IRAM cfg - CACHE_SIZE cfg) /\
  (appcpu_enabled cfg = false ->
   CONFIG_ESP32_MCUBOOT_IRAM cfg <= 0x8000 ->
   iram_region dt cfg = iram_region dt (without_mcuboot cfg)) /\
  (appcpu_enabled cfg = true ->
   0 <= CONFIG_ESP32_MCUBOOT_IRAM cfg ->
   IRAM_START dt cfg = IRAM_START dt (without_mcuboot cfg) + CONFIG_ESP32_MCUBOOT_IRAM cfg).
Proof.
  intros Hm.
  pose proof (IRAM_RESERVED_without_mcuboot cfg) as Hw.
  pose proof (IRAM_RESERVED_max cfg) as Hr.
  unfold BOOTLOADER_IRAM_RESERVED in Hr. rewrite Hm in Hr.
  assert (Hs : SRAM1_IRAM_SIZE dt (without_mcuboot cfg) = SRAM1_IRAM_SIZE dt cfg)
    by reflexivity.
  unfold iram_region, IRAM_START, IRAM_SIZE. rewrite Hw, Hr, Hs.
  split; [lia |]. split; [lia |]. split.
  - intros Ha Hl. unfold CACHE_SIZE. rewrite Ha.
    unfold CACHE_SIZE_SINGLE_CPU, CACHE_SIZE_DUAL_CPU.
    rewrite Z.max_l by lia. reflexivity.
  - intros Ha Hl. unfold CACHE_SIZE. rewrite Ha. lia.
Qed.

Lemma bootloader_iram_cost_esp32 :
  (mcuboot_enabled cfg_mcuboot_16k = true /\
   appcpu_enabled cfg_mcuboot_16k = false /\
   CONFIG_ESP32_MCUBOOT_IRAM cfg_mcuboot_16k <= 0x8000 /\
   iram_region esp32_dt cfg_mcuboot_16k
     = iram_region esp32_dt (without_mcuboot cfg_mcuboot_16k)) /\
  (mcuboot_enabled cfg_amp_mcuboot = true /\
   appcpu_enabled cfg_amp_mcuboot = true /\
   0 <= CONFIG_ESP32_MCUBOOT_IRAM cfg_amp_mcuboot /\
   IRAM_START esp32_dt cfg_amp_mcuboot
     = IRAM_START esp32_dt (without_mcuboot cfg_amp_mcuboot)
       + CONFIG_ESP32_MCUBOOT_IRAM cfg_amp_mcuboot).
Proof.
  assert (H1 : CONFIG_ESP32_MCUBOOT_IRAM cfg_mcuboot_16k <= 0x8000)
    by (vm_compute; discriminate).
  assert (H2 : 0 <= CONFIG_ESP32_MCUBOOT_IRAM cfg_amp_mcuboot)
    by (vm_compute; discriminate).
  destruct (bootloader_iram_cost esp32_dt cfg_mcuboot_16k eq_refl) as [_ [_ [Hs _]]].
  destruct (bootloader_iram_cost esp32_dt cfg_amp_mcuboot eq_refl) as [_ [_ [_ Hd]]].
  exact (conj (conj eq_refl (conj eq_refl (conj H1 (Hs eq_refl H1))))
              (conj eq_refl (conj eq_refl (conj H2 (Hd eq_refl H2))))).
Defined.

(** X8.  Defining an "App" CPU symbol on a single-core configuration never
    raises the head reservation and lowers it by at most 32 KiB, so the
    IRAM pool never shrinks and grows by at most 32 KiB; without a
    bootloader it grows by exactly 32 KiB. *)
Theorem appcpu_toggle_effect (dt : devicetree) (cfg : kconfig) (iram_size dram_size : Z) :
  appcpu_enabled cfg = false ->
  IRAM_RESERVED (with_appcpu cfg iram_size dram_size) <= IRAM_RESERVED cfg
    <= IRAM_RESERVED (with_appcpu cfg iram_size dram_size) + 0x8000 /\
  IRAM_SIZE dt cfg <= IRAM_SIZE dt (with_appcpu cfg iram_size dram_size)
    <= IRAM_SIZE dt cfg + 0x8000 /\
  (mcuboot_enabled cfg = false ->
   IRAM_SIZE dt (with_appcpu cfg iram_size dram_size) = IRAM_SIZE dt cfg + 0x8000).
Proof.
  intros Ha.
  set (cfg' := with_appcpu cfg iram_size dram_size).
  assert (Hb : BOOTLOADER_IRAM_RESERVED cfg' = BOOTLOADER_IRAM_RESERVED cfg)
    by reflexivity.
  assert (Hc' : CACHE_SIZE cfg' = 0x8000) by reflexivity.
  assert (Hc : CACHE_SIZE cfg = 0x10000) by (unfold CACHE_SIZE; rewrite Ha; reflexivity).
  assert (Hs : SRAM1_IRAM_SIZE dt cfg' = SRAM1_IRAM_SIZE dt cfg) by reflexivity.
  unfold IRAM_SIZE. rewrite Hs.
  rewrite (IRAM_RESERVED_max cfg), (IRAM_RESERVED_max cfg'), Hb, Hc, Hc'.
  split; [lia |]. split; [lia |].
  intros Hm. unfold BOOTLOADER_IRAM_RESERVED. rewrite Hm. lia.
Qed.

Lemma appcpu_toggle_effect_esp32 :
  appcpu_enabled cfg_default = false /\
  mcuboot_enabled cfg_default = false /\
  IRAM_SIZE esp32_dt (with_appcpu cfg_default 0x6000 0x4000)
    = IRAM_SIZE esp32_dt cfg_default + 0x8000.
Proof.
  exact (conj eq_refl (conj eq_refl
           (proj2 (proj2 (appcpu_toggle_effect esp32_dt cfg_default 0x6000 0x4000 eq_refl))
              eq_refl))).
Defined.

(** ** Data memory *)

(** X9.  The DRAM region always ends at the end of SRAM2, and with a
    non-negative Bluetooth reservation none of its addresses lies in the
    first 8 KiB of the bank or outside the bank. *)
Theorem dram_region_in_sram2 (dt : devicetree) (cfg : kconfig) :
  END (dram_region dt cfg) = END (sram2_bank dt) /\
  DRAM_RESERVED cfg + DRAM_SIZE dt cfg = SRAM2_SIZE dt /\
  (0 <= CONFIG_ESP32_BT_RESERVE_DRAM cfg ->
   forall a, contains (dram_region dt cfg) a ->
             SRAM2_START dt + 0x2000 <= a /\ contains (sram2_bank dt) a).
Proof.
  unfold contains, END, dram_region, sram2_bank, DRAM_START, DRAM_SIZE, DRAM_RESERVED;
    cbn [START SIZE].
  split; [lia |]. split; [lia |].
  intros Hb a Ha. lia.
Qed.

Lemma dram_region_in_sram2_esp32 :
  0 <= CONFIG_ESP32_BT_RESERVE_DRAM cfg_default /\
  contains (dram_region esp32_dt cfg_default) 0x3ffb0000 /\
  contains (sram2_bank esp32_dt) 0x3ffb0000.
Proof.
  assert (Hb : 0 <= CONFIG_ESP32_BT_RESERVE_DRAM cfg_default)
    by (vm_compute; discriminate).
  assert (Hin : contains (dram_region esp32_dt cfg_default) 0x3ffb0000)
    by (vm_compute; split; [discriminate | reflexivity]).
  exact (conj Hb (conj Hin
           (proj2 (proj2 (proj2 (dram_region_in_sram2 esp32_dt cfg_default))
                     Hb 0x3ffb0000 Hin)))).
Defined.

(** X10.  When SRAM2 lies below SRAM1 on the data bus, the DRAM region and
    the "App" CPU DRAM region are disjoint from the heap region, and so is
    the "Pro" CPU DRAM region for a non-negative "App" CPU DRAM size. *)
Theorem data_bus_disjointness (dt : devicetree) (cfg : kconfig) :
  END (sram2_bank dt) <= SRAM1_START dt ->
  disjoint (dram_region dt cfg) (heap_region dt cfg) /\
  disjoint (appcpu_dram_region dt cfg) (heap_region dt cfg) /\
  (0 <= APPCPU_DRAM_SIZE cfg ->
   disjoint (procpu_dram_region dt cfg) (heap_region dt cfg)).
Proof.
  intros Hb.
  pose proof (END_dram_region dt cfg) as He.
  assert (Hh : START (heap_region dt cfg) = SRAM1_START dt + 0x8000) by reflexivity.
  split; [| split].
  - apply disjoint_of_order. lia.
  - apply disjoint_of_order.
    replace (END (appcpu_dram_region dt cfg)) with (END (dram_region dt cfg)); [lia |].
    unfold END, appcpu_dram_region, dram_region, APPCPU_DRAM_START; simpl. lia.
  - intros Ha. apply disjoint_of_order.
    rewrite procpu_appcpu_dram_adjacent.
    assert (START (appcpu_dram_region dt cfg) <= END (dram_region dt cfg)); [| lia].
    unfold END, appcpu_dram_region, dram_region, APPCPU_DRAM_START; simpl. lia.
Qed.

Lemma data_bus_disjointness_esp32 :
  END (sram2_bank esp32_dt) <= SRAM1_START esp32_dt /\
  0 <= APPCPU_DRAM_SIZE cfg_amp_mcuboot /\
  disjoint (dram_region esp32_dt cfg_amp_mcuboot) (heap_region esp32_dt cfg_amp_mcuboot) /\
  disjoint (procpu_dram_region esp32_dt cfg_amp_mcuboot)
           (heap_region esp32_dt cfg_amp_mcuboot).
Proof.
  assert (Hb : END (sram2_bank esp32_dt) <= SRAM1_START esp32_dt)
    by (vm_compute; discriminate).
  assert (Ha : 0 <= APPCPU_DRAM_SIZE cfg_amp_mcuboot) by (vm_compute; discriminate).
  destruct (data_bus_disjointness esp32_dt cfg_amp_mcuboot Hb) as [H1 [_ H3]].
  exact (conj Hb (conj Ha (conj H1 (H3 Ha)))).
Defined.

(** ** The per-core split as a partition *)

(** X11.  When the "App" CPU size is non-negative and at most the pool
    size, an address belongs to the pool exactly when it belongs to the
    "Pro" CPU region or to the "App" CPU region, for IRAM and for DRAM. *)
Theorem per_core_split_covers (dt : devicetree) (cfg : kconfig) (a : Z) :
  (0 <= APPCPU_IRAM_SIZE cfg <= IRAM_SIZE dt cfg ->
   (contains (iram_region dt cfg) a <->
    contains (procpu_iram_region dt cfg) a \/ contains (appcpu_iram_region dt cfg) a)) /\
  (0 <= APPCPU_DRAM_SIZE cfg <= DRAM_SIZE dt cfg ->
   (contains (dram_region dt cfg) a <->
    contains (procpu_dram_region dt cfg) a \/ contains (appcpu_dram_region dt cfg) a)).
Proof.
  unfold contains, END, iram_region, dram_region, procpu_iram_region,
    appcpu_iram_region, procpu_dram_region, appcpu_dram_region,
    PROCPU_IRAM_START, PROCPU_IRAM_SIZE, APPCPU_IRAM_START,
    PROCPU_DRAM_START, PROCPU_DRAM_SIZE, APPCPU_DRAM_START; simpl.
  split; intros H; lia.
Qed.

Lemma per_core_split_covers_esp32 :
  (0 <= APPCPU_IRAM_SIZE cfg_amp_mcuboot <= IRAM_SIZE esp32_dt cfg_amp_mcuboot) /\
  (0 <= APPCPU_DRAM_SIZE cfg_amp_mcuboot <= DRAM_SIZE esp32_dt cfg_amp_mcuboot) /\
  (contains (iram_region esp32_dt cfg_amp_mcuboot) 0x400c4000 <->
   contains (procpu_iram_region esp32_dt cfg_amp_mcuboot) 0x400c4000 \/
   contains (appcpu_iram_region esp32_dt cfg_amp_mcuboot) 0x400c4000) /\
  (contains (dram_region esp32_dt cfg_amp_mcuboot) 0x3ffb0000 <->
   contains (procpu_dram_region esp32_dt cfg_amp_mcuboot) 0x3ffb0000 \/
   contains (appcpu_dram_region esp32_dt cfg_amp_mcuboot) 0x3ffb0000).
Proof.
  assert (Hi : 0 <= APPCPU_IRAM_SIZE cfg_amp_mcuboot <= IRAM_SIZE esp32_dt cfg_amp_mcuboot)
    by (vm_compute; split; discriminate).
  assert (Hd : 0 <= APPCPU_DRAM_SIZE cfg_amp_mcuboot <= DRAM_SIZE esp32_dt cfg_amp_mcuboot)
    by (vm_compute; split; discriminate).
  exact (conj Hi (conj Hd
           (conj (proj1 (per_core_split_covers esp32_dt cfg_amp_mcuboot 0x400c4000) Hi)
                 (proj2 (per_core_split_covers esp32_dt cfg_amp_mcuboot 0x3ffb0000) Hd)))).
Defined.

(** ** The bootloader's regions *)

(** X12.  With a second stage bootloader its two IRAM regions tile SRAM0
    above the first 32 KiB: the critical region starts 32 KiB into the
    bank, the reclaimable region starts where the critical one ends and
    ends where SRAM0 ends, which is where the instruction-bus view of
    SRAM1 starts. *)
Theorem loader_regions_tile_sram0 (dt : devicetree) (cfg : kconfig) :
  mcuboot_enabled cfg = true ->
  exists lc lr : region,
    loader_critical_region dt cfg = Some lc /\
    loader_reclaimable_region dt cfg = Some lr /\
    START lc = SRAM0_START dt + 0x8000 /\
    START lr = END lc /\
    END lr = END (sram0_bank dt) /\
    END lr = SRAM1_IRAM_START dt /\
    SIZE lc + SIZE lr = SRAM0_SIZE dt - 0x8000.
Proof.
  intros Hm.
  destruct (loader_regions_defined dt cfg Hm) as [E1 E2].
  eexists. eexists.
  split; [exact E1 |]. split; [exact E2 |].
  unfold END, sram0_bank, SRAM1_IRAM_START, CACHE_SIZE_SINGLE_CPU; cbn [START SIZE].
  lia.
Qed.

Lemma loader_regions_tile_sram0_esp32 :
  mcuboot_enabled cfg_bootloader_build = true /\
  exists lc lr : region,
    loader_critical_region esp32_dt cfg_bootloader_build = Some lc /\
    loader_reclaimable_region esp32_dt cfg_bootloader_build = Some lr /\
    START lr = END lc /\
    END lr = SRAM1_IRAM_START esp32_dt.
Proof.
  split; [reflexivity |].
  destruct (loader_regions_tile_sram0 esp32_dt cfg_bootloader_build eq_refl)
    as [lc [lr [H1 [H2 [_ [H4 [_ [H6 _]]]]]]]].
  exists lc, lr. exact (conj H1 (conj H2 (conj H4 H6))).
Defined.

(** X13.  Two builds over the same devicetree that both select the
    bootloader block with the same loader size, such as MCUboot's own build
    and the build of the application it boots, get the same two loader
    regions, whatever their other symbols; and the application's IRAM pool
    never overlaps the critical loader region. *)
Theorem loader_regions_agree (dt : devicetree) (boot app : kconfig) :
  mcuboot_enabled boot = true ->
  mcuboot_enabled app = true ->
  CONFIG_ESP32_MCUBOOT_IRAM app = CONFIG_ESP32_MCUBOOT_IRAM boot ->
  loader_critical_region dt app = loader_critical_region dt boot /\
  loader_reclaimable_region dt app = loader_reclaimable_region dt boot /\
  (forall lc, loader_critical_region dt boot = Some lc ->
              disjoint lc (iram_region dt app)).
Proof.
  intros Hb Ha Hl.
  destruct (loader_regions_defined dt boot Hb) as [B1 B2].
  destruct (loader_regions_defined dt app Ha) as [A1 A2].
  rewrite A1, A2, B1, B2, Hl.
  split; [reflexivity |]. split; [reflexivity |].
  intros lc Hlc. injection Hlc as <-.
  apply disjoint_of_order.
  pose proof (IRAM_RESERVED_ge_loader app) as Hge.
  unfold BOOTLOADER_IRAM_RESERVED in Hge. rewrite Ha, Hl in Hge.
  unfold END, iram_region, IRAM_START; cbn [START SIZE]. lia.
Qed.

Lemma loader_regions_agree_esp32 :
  mcuboot_enabled cfg_bootloader_build = true /\
  mcuboot_enabled cfg_amp_mcuboot = true /\
  CONFIG_ESP32_MCUBOOT_IRAM cfg_amp_mcuboot = CONFIG_ESP32_MCUBOOT_IRAM cfg_bootloader_build /\
  loader_critical_region esp32_dt cfg_amp_mcuboot
    = loader_critical_region esp32_dt cfg_bootloader_build /\
  disjoint (mk_region 0x40088000 0x4000) (iram_region esp32_dt cfg_amp_mcuboot).
Proof.
  destruct (loader_regions_agree esp32_dt cfg_bootloader_build cfg_amp_mcuboot
              eq_refl eq_refl eq_refl) as [H1 [_ H3]].
  exact (conj eq_refl (conj eq_refl (conj eq_refl
           (conj H1 (H3 (mk_region 0x40088000 0x4000) eq_refl))))).
Defined.

(** X14.  When the IRAM extension in SRAM1 has a non-negative size, the
    application's IRAM pool contains every address of the reclaimable
    loader region from [IRAM_START] on: what the bootloader leaves
    reclaimable above the head reservation is reclaimed in full. *)
Theorem reclaimable_is_reclaimed (dt : devicetree) (cfg : kconfig) (lr : region) (a : Z) :
  0 <= SRAM1_IRAM_SIZE dt cfg ->
  loader_reclaimable_region dt cfg = Some lr ->
  contains lr a ->
  IRAM_START dt cfg <= a ->
  contains (iram_region dt cfg) a.
Proof.
  intros Hs Hlr Hin Hlo.
  destruct (mcuboot_enabled cfg) eqn:Hm.
  - destruct (loader_regions_defined dt cfg Hm) as [_ E].
    assert (Elr : Some lr = Some (mk_region
                    (SRAM0_START dt + CACHE_SIZE_SINGLE_CPU + CONFIG_ESP32_MCUBOOT_IRAM cfg)
                    (SRAM0_SIZE dt - (CACHE_SIZE_SINGLE_CPU + CONFIG_ESP32_MCUBOOT_IRAM cfg))))
      by (rewrite <- Hlr; exact E).
    apply Some_eq_inv in Elr.
    assert (Hst : START lr = SRAM0_START dt + CACHE_SIZE_SINGLE_CPU
                             + CONFIG_ESP32_MCUBOOT_IRAM cfg)
      by (rewrite Elr; reflexivity).
    assert (Hsz : SIZE lr = SRAM0_SIZE dt
                            - (CACHE_SIZE_SINGLE_CPU + CONFIG_ESP32_MCUBOOT_IRAM cfg))
      by (rewrite Elr; reflexivity).
    pose proof (END_iram_region dt cfg) as Hp.
    unfold contains in *. rewrite Hp.
    change (START (iram_region dt cfg)) with (IRAM_START dt cfg).
    unfold END, SRAM1_IRAM_START in *. rewrite Hst, Hsz in Hin. lia.
  - destruct (loader_regions_undefined dt cfg Hm) as [_ E].
    rewrite E in Hlr. discriminate.
Qed.

Lemma reclaimable_is_reclaimed_esp32 :
  0 <= SRAM1_IRAM_SIZE esp32_dt cfg_mcuboot_16k /\
  loader_reclaimable_region esp32_dt cfg_mcuboot_16k = Some (mk_region 0x4008c000 0x24000) /\
  contains (mk_region 0x4008c000 0x24000) 0x40090000 /\
  IRAM_START esp32_dt cfg_mcuboot_16k <= 0x40090000 /\
  contains (iram_region esp32_dt cfg_mcuboot_16k) 0x40090000.
Proof.
  assert (Hs : 0 <= SRAM1_IRAM_SIZE esp32_dt cfg_mcuboot_16k)
    by (vm_compute; discriminate).
  assert (Hin : contains (mk_region 0x4008c000 0x24000) 0x40090000)
    by (vm_compute; split; [discriminate | reflexivity]).
  assert (Hlo : IRAM_START esp32_dt cfg_mcuboot_16k <= 0x40090000)
    by (vm_compute; discriminate).
  exact (conj Hs (conj eq_refl (conj Hin (conj Hlo
           (reclaimable_is_reclaimed esp32_dt cfg_mcuboot_16k
              (mk_region 0x4008c000 0x24000) 0x40090000 Hs eq_refl Hin Hlo))))).
Defined.

(** X15.  On the ESP32 geometry of SRAM1 (128 KiB at 0x3ffe0000) the
    bootloader's DRAM region is SRAM1 without its reserved first 32 KiB:
    it starts at [HEAP_START] and ends with the bank, so a heap that fits
    SRAM1 lies inside it. *)
Theorem loader_dram_is_sram1_tail (dt : devicetree) (cfg : kconfig) :
  mcuboot_enabled cfg = true ->
  SRAM1_START dt = 0x3ffe0000 ->
  SRAM1_SIZE dt = 0x20000 ->
  exists ld : region,
    loader_dram_region cfg = Some ld /\
    START ld = HEAP_START dt /\
    END ld = END (sram1_dram_view dt) /\
    (0 <= CONFIG_ESP32_SRAM1_HEAP_SIZE cfg ->
     0 <= SRAM1_IRAM_SIZE dt cfg ->
     forall a, contains (heap_region dt cfg) a -> contains ld a).
Proof.
  intros Hm Hs Hz.
  exists (mk_region 0x3ffe8000 0x18000).
  split.
  - unfold loader_dram_region, BOOTLOADER_DRAM_START, BOOTLOADER_DRAM_SIZE.
    rewrite Hm. reflexivity.
  - unfold contains, END, heap_region, sram1_dram_view, HEAP_START, HEAP_SIZE,
      SRAM1_DRAM_SIZE, SRAM1_DRAM_START, SRAM1_IRAM_SIZE, SRAM1_RESERVED;
      cbn [START SIZE].
    rewrite Hs, Hz.
    split; [lia |]. split; [lia |].
    intros Hh Hi a Ha. lia.
Qed.

Lemma loader_dram_is_sram1_tail_esp32 :
  mcuboot_enabled cfg_bootloader_build = true /\
  SRAM1_START esp32_dt = 0x3ffe0000 /\
  SRAM1_SIZE esp32_dt = 0x20000 /\
  exists ld : region,
    loader_dram_region cfg_bootloader_build = Some ld /\
    START ld = HEAP_START esp32_dt /\
    END ld = END (sram1_dram_view esp32_dt).
Proof.
  destruct (loader_dram_is_sram1_tail esp32_dt cfg_bootloader_build
              eq_refl eq_refl eq_refl) as [ld [H1 [H2 [H3 _]]]].
  exact (conj eq_refl (conj eq_refl (conj eq_refl
           (ex_intro _ ld (conj H1 (conj H2 H3)))))).
Defined.

(** ** Symbols that are not looked at *)

(** X16.  On a configuration without "App" CPU the two "App" CPU sizes are
    not looked at, and on a configuration without second stage bootloader
    the loader size is not looked at: changing them leaves the whole
    layout unchanged. *)
Theorem inactive_symbols_ignored (dt : devicetree) (cfg : kconfig) :
  (appcpu_enabled cfg = false ->
   forall iram_size dram_size,
     resolve dt (with_appcpu_sizes cfg iram_size dram_size) = resolve dt cfg) /\
  (mcuboot_enabled cfg = false ->
   forall n, resolve dt (with_loader_size cfg n) = resolve dt cfg).
Proof.
  split.
  - intros Ha i d.
    assert (Ha' : appcpu_enabled (with_appcpu_sizes cfg i d) = false) by exact Ha.
    assert (Hai : APPCPU_IRAM_SIZE (with_appcpu_sizes cfg i d) = APPCPU_IRAM_SIZE cfg)
      by (unfold APPCPU_IRAM_SIZE; rewrite Ha, Ha'; reflexivity).
    assert (Had : APPCPU_DRAM_SIZE (with_appcpu_sizes cfg i d) = APPCPU_DRAM_SIZE cfg)
      by (unfold APPCPU_DRAM_SIZE; rewrite Ha, Ha'; reflexivity).
    assert (H1 : procpu_iram_region dt (with_appcpu_sizes cfg i d)
                 = procpu_iram_region dt cfg)
      by (unfold procpu_iram_region, PROCPU_IRAM_SIZE; rewrite Hai; reflexivity).
    assert (H2 : appcpu_iram_region dt (with_appcpu_sizes cfg i d)
                 = appcpu_iram_region dt cfg)
      by (unfold appcpu_iram_region, APPCPU_IRAM_START; rewrite Hai; reflexivity).
    assert (H3 : procpu_dram_region dt (with_appcpu_sizes cfg i d)
                 = procpu_dram_region dt cfg)
      by (unfold procpu_dram_region, PROCPU_DRAM_SIZE; rewrite Had; reflexivity).
    assert (H4 : appcpu_dram_region dt (with_appcpu_sizes cfg i d)
                 = appcpu_dram_region dt cfg)
      by (unfold appcpu_dram_region, APPCPU_DRAM_START; rewrite Had; reflexivity).
    unfold resolve. rewrite H1, H2, H3, H4. reflexivity.
  - intros Hm n.
    assert (Hm' : mcuboot_enabled (with_loader_size cfg n) = false) by exact Hm.
    assert (Hb : BOOTLOADER_IRAM_RESERVED (with_loader_size cfg n)
                 = BOOTLOADER_IRAM_RESERVED cfg)
      by (unfold BOOTLOADER_IRAM_RESERVED; rewrite Hm, Hm'; reflexivity).
    assert (Hr : IRAM_RESERVED (with_loader_size cfg n) = IRAM_RESERVED cfg)
      by (unfold IRAM_RESERVED; rewrite Hb; reflexivity).
    assert (Hi : iram_region dt (with_loader_size cfg n) = iram_region dt cfg)
      by (unfold iram_region, IRAM_START, IRAM_SIZE; rewrite Hr; reflexivity).
    assert (H1 : procpu_iram_region dt (with_loader_size cfg n)
                 = procpu_iram_region dt cfg)
      by (unfold procpu_iram_region, PROCPU_IRAM_START, PROCPU_IRAM_SIZE,
            IRAM_START, IRAM_SIZE; rewrite Hr; reflexivity).
    assert (H2 : appcpu_iram_region dt (with_loader_size cfg n)
                 = appcpu_iram_region dt cfg)
      by (unfold appcpu_iram_region, APPCPU_IRAM_START, IRAM_START, IRAM_SIZE;
          rewrite Hr; reflexivity).
    assert (H3 : loader_dram_region (with_loader_size cfg n) = loader_dram_region cfg)
      by (unfold loader_dram_region, BOOTLOADER_DRAM_START, BOOTLOADER_DRAM_SIZE;
          rewrite Hm, Hm'; reflexivity).
    destruct (loader_regions_undefined dt cfg Hm) as [E1 E2].
    destruct (loader_regions_undefined dt (with_loader_size cfg n) Hm') as [E1' E2'].
    unfold resolve. rewrite E1, E2, E1', E2', Hi, H1, H2, H3. reflexivity.
Qed.

Lemma inactive_symbols_ignored_esp32 :
  appcpu_enabled cfg_default = false /\
  mcuboot_enabled cfg_default = false /\
  resolve esp32_dt (with_appcpu_sizes cfg_default 0x6000 0x4000)
    = resolve esp32_dt cfg_default /\
  resolve esp32_dt (with_loader_size cfg_default 0x4000) = resolve esp32_dt cfg_default.
Proof.
  exact (conj eq_refl (conj eq_refl
           (conj (proj1 (inactive_symbols_ignored esp32_dt cfg_default) eq_refl 0x6000 0x4000)
                 (proj2 (inactive_symbols_ignored esp32_dt cfg_default) eq_refl 0x4000)))).
Defined.

(** ** The translators at a word width *)

(** X17.  Evaluated in [w]-bit unsigned arithmetic, for any [w], the
    translators are still inverse to each other on the addresses that are
    representable in [w] bits, and each agrees with the exact translator
    whenever the exact result is representable. *)
Theorem translators_inverse_at_width (w : Z) (dt : devicetree) (x y : Z) :
  0 <= x < 2 ^ w ->
  0 <= y < 2 ^ w ->
  SRAM1_DRAM_IRAM_CALC_w w dt (SRAM1_IRAM_DRAM_CALC_w w dt x) = x /\
  SRAM1_IRAM_DRAM_CALC_w w dt (SRAM1_DRAM_IRAM_CALC_w w dt y) = y /\
  (0 <= SRAM1_IRAM_DRAM_CALC dt x < 2 ^ w ->
   SRAM1_IRAM_DRAM_CALC_w w dt x = SRAM1_IRAM_DRAM_CALC dt x) /\
  (0 <= SRAM1_DRAM_IRAM_CALC dt y < 2 ^ w ->
   SRAM1_DRAM_IRAM_CALC_w w dt y = SRAM1_DRAM_IRAM_CALC dt y).
Proof.
  intros Hx Hy.
  split; [apply SRAM1_DRAM_IRAM_CALC_w_inverse; exact Hx |].
  split; [apply SRAM1_IRAM_DRAM_CALC_w_inverse; exact Hy |].
  split; intros H.
  - rewrite SRAM1_IRAM_DRAM_CALC_w_exact. apply wrap_small. exact H.
  - rewrite SRAM1_DRAM_IRAM_CALC_w_exact. apply wrap_small. exact H.
Qed.

Lemma translators_inverse_at_width_32 :
  (0 <= 0x400b1234 < 2 ^ 32) /\
  (0 <= 0x3ffe4321 < 2 ^ 32) /\
  SRAM1_DRAM_IRAM_CALC_w 32 esp32_dt (SRAM1_IRAM_DRAM_CALC_w 32 esp32_dt 0x400b1234)
    = 0x400b1234 /\
  SRAM1_IRAM_DRAM_CALC_w 32 esp32_dt 0x400b1234
    = SRAM1_IRAM_DRAM_CALC esp32_dt 0x400b1234.
Proof.
  assert (Hx : 0 <= 0x400b1234 < 2 ^ 32)
    by (vm_compute; split; [discriminate | reflexivity]).
  assert (Hy : 0 <= 0x3ffe4321 < 2 ^ 32)
    by (vm_compute; split; [discriminate | reflexivity]).
  assert (Hr : 0 <= SRAM1_IRAM_DRAM_CALC esp32_dt 0x400b1234 < 2 ^ 32)
    by (vm_compute; split; [discriminate | reflexivity]).
  destruct (translators_inverse_at_width 32 esp32_dt 0x400b1234 0x3ffe4321 Hx Hy)
    as [H1 [_ [H3 _]]].
  exact (conj Hx (conj Hy (conj H1 (H3 Hr)))).
Defined.

(** ** Expansion as text *)

Lemma run_app (f : frame) (ts1 ts2 : list token) :
  run f (ts1 ++ ts2) =
  match run f ts1 with
  | Some f' => run f' ts2
  | None => None
  end.
Proof.
  revert f. induction ts1 as [| t ts1 IH]; intros f; cbn [app run].
  - reflexivity.
  - destruct (step f t) as [f' |]; [apply IH | reflexivity].
Qed.

(** A step that succeeds does not look at the enclosing levels it does not
    close. *)
Lemma step_extend (f f' : frame) (t : token) (ext : list (Z * Z)) :
  step f t = Some f' -> step (extend f ext) t = Some (extend f' ext).
Proof.
  destruct f as [a s d o]. unfold step, extend; cbn [acc sign operand_due outer].
  destruct t, d; try discriminate; intros H.
  - apply Some_eq_inv in H. subst f'. reflexivity.
  - apply Some_eq_inv in H. subst f'. reflexivity.
  - apply Some_eq_inv in H. subst f'. reflexivity.
  - apply Some_eq_inv in H. subst f'. reflexivity.
  - destruct o as [| [a0 s0] o']; [discriminate |].
    apply Some_eq_inv in H. subst f'. reflexivity.
Qed.

Lemma run_extend (f f' : frame) (ts : list token) (ext : list (Z * Z)) :
  run f ts = Some f' -> run (extend f ext) ts = Some (extend f' ext).
Proof.
  revert f. induction ts as [| t ts IH]; intros f; cbn [run].
  - intros H. apply Some_eq_inv in H. subst f'. reflexivity.
  - destruct (step f t) as [f1 |] eqn:E; [| discriminate].
    intros H. rewrite (step_extend f f1 t ext E). apply IH. exact H.
Qed.

(** The frame a complete expression leaves behind. *)
Lemma eval_frame (ts : list token) (v : Z) :
  eval ts = Some v ->
  exists s, run frame_init ts = Some (mk_frame v s false []).
Proof.
  unfold eval. destruct (run frame_init ts) as [[a s d o] |]; [| discriminate].
  cbn [acc operand_due outer].
  destruct d; [discriminate |]. destruct o; [| discriminate].
  intros H. apply Some_eq_inv in H. subst a. exists s. reflexivity.
Qed.

(** A complete expression met where an operand is due, at the start of a
    parenthesised level, leaves its value as that level's accumulator. *)
Lemma run_argument (ts rest : list token) (v : Z) (ext : list (Z * Z)) :
  eval ts = Some v ->
  exists s, run (mk_frame 0 1 true ext) (ts ++ rest) = run (mk_frame v s false ext) rest.
Proof.
  intros H. destruct (eval_frame ts v H) as [s Hs].
  exists s. rewrite run_app.
  change (mk_frame 0 1 true ext) with (extend frame_init ext).
  rewrite (run_extend frame_init _ ts ext Hs). reflexivity.
Qed.

(** X18.  Spliced in as text, the argument of either translator may be any
    expression built from integer literals, binary [+] and [-] and
    parentheses: the expansion is a complete expression and its value is the
    translator applied to the value of the argument. *)
Theorem translator_expansion (dt : devicetree) (arg : list token) (v : Z) :
  eval arg = Some v ->
  eval (SRAM1_IRAM_DRAM_CALC_tokens dt arg) = Some (SRAM1_IRAM_DRAM_CALC dt v) /\
  eval (SRAM1_DRAM_IRAM_CALC_tokens dt arg) = Some (SRAM1_DRAM_IRAM_CALC dt v).
Proof.
  intros H. split.
  - unfold SRAM1_IRAM_DRAM_CALC_tokens, SRAM1_IRAM_START_tokens, eval.
    cbn [app run step frame_init acc sign operand_due outer].
    destruct (run_argument arg
                ([TMinus; TLParen; TNum (SRAM0_START dt); TPlus; TNum (SRAM0_SIZE dt);
                  TRParen; TRParen; TPlus; TNum (SRAM1_START dt); TRParen])
                v [(0 + 1 * SRAM1_SIZE dt, -1); (0, 1)] H) as [s Hs].
    cbn [app] in Hs. rewrite Hs.
    cbn [run step acc sign operand_due outer].
    f_equal. unfold SRAM1_IRAM_DRAM_CALC, SRAM1_IRAM_START, SRAM1_DRAM_START. lia.
  - unfold SRAM1_DRAM_IRAM_CALC_tokens, SRAM1_IRAM_START_tokens, eval.
    cbn [app run step frame_init acc sign operand_due outer].
    destruct (run_argument arg
                ([TMinus; TNum (SRAM1_START dt); TRParen; TPlus; TLParen;
                  TNum (SRAM0_START dt); TPlus; TNum (SRAM0_SIZE dt); TRParen; TRParen])
                v [(0 + 1 * SRAM1_SIZE dt, -1); (0, 1)] H) as [s Hs].
    cbn [app] in Hs. rewrite Hs.
    cbn [run step acc sign operand_due outer].
    f_equal. unfold SRAM1_DRAM_IRAM_CALC, SRAM1_IRAM_START, SRAM1_DRAM_START. lia.
Qed.

(** The argument [0x400b0000 + (0x2000 - 0x800)]. *)
Lemma translator_expansion_esp32 :
  eval [TNum 0x400b0000; TPlus; TLParen; TNum 0x2000; TMinus; TNum 0x800; TRParen]
    = Some 0x400b1800 /\
  eval (SRAM1_IRAM_DRAM_CALC_tokens esp32_dt
          [TNum 0x400b0000; TPlus; TLParen; TNum 0x2000; TMinus; TNum 0x800; TRParen])
    = Some (SRAM1_IRAM_DRAM_CALC esp32_dt 0x400b1800).
Proof.
  exact (conj eq_refl
           (proj1 (translator_expansion esp32_dt
                     [TNum 0x400b0000; TPlus; TLParen; TNum 0x2000; TMinus;
                      TNum 0x800; TRParen]
                     0x400b1800 eq_refl))).
Defined.

(** X19.  [HEAP_START] is the one compound macro whose replacement list has
    no parentheses.  On its own it expands to the heap start, but
    subtracted from an expression it gives
    [e - SRAM1_START + SRAM1_RESERVED], which is 64 KiB more than the
    difference to the heap start; the parenthesised [DRAM_START]
    subtracts as a whole. *)
Theorem HEAP_START_not_parenthesised (dt : devicetree) (cfg : kconfig)
    (lhs : list token) (v : Z) :
  eval lhs = Some v ->
  eval (HEAP_START_tokens dt) = Some (HEAP_START dt) /\
  eval (lhs ++ [TMinus] ++ HEAP_START_tokens dt) = Some (v - HEAP_START dt + 0x10000) /\
  eval (lhs ++ [TMinus] ++ HEAP_START_tokens dt) <> Some (v - HEAP_START dt) /\
  eval (lhs ++ [TMinus] ++ DRAM_START_tokens dt cfg) = Some (v - DRAM_START dt cfg).
Proof.
  intros H. destruct (eval_frame lhs v H) as [s Hs].
  assert (E : eval (lhs ++ [TMinus] ++ HEAP_START_tokens dt)
              = Some (v - HEAP_START dt + 0x10000)).
  { unfold eval. rewrite run_app, Hs.
    unfold HEAP_START_tokens.
    cbn [app run step acc sign operand_due outer].
    f_equal. unfold HEAP_START, SRAM1_RESERVED. lia. }
  split; [| split; [exact E | split]].
  - unfold eval, HEAP_START_tokens, frame_init.
    cbn [run step acc sign operand_due outer].
    f_equal. unfold HEAP_START. lia.
  - rewrite E. intros C. apply Some_eq_inv in C. lia.
  - unfold eval. rewrite run_app, Hs.
    unfold DRAM_START_tokens, DRAM_RESERVED_tokens.
    cbn [app run step acc sign operand_due outer].
    f_equal. unfold DRAM_START, DRAM_RESERVED. lia.
Qed.

(** The end of SRAM1 minus the heap start, as text: 163840 instead of the
    98304 bytes between the two addresses. *)
Lemma HEAP_START_not_parenthesised_esp32 :
  eval [TNum 0x40000000] = Some 0x40000000 /\
  0x40000000 - HEAP_START esp32_dt = 98304 /\
  eval ([TNum 0x40000000] ++ [TMinus] ++ HEAP_START_tokens esp32_dt) = Some 163840.
Proof.
  exact (conj eq_refl (conj eq_refl
           (proj1 (proj2 (HEAP_START_not_parenthesised esp32_dt cfg_default
                            [TNum 0x40000000] 0x40000000 eq_refl))))).
Defined.
